(** * promise-dapp: the record store of [scripts/backend/user-storage.js]

    A shallow embedding of [UserStorageService] and of the two HTTP front
    ends of [main-backend-server.js] that drive it, followed by the
    properties of the reputation engine, the promise lifecycle, the
    moderation workflow and the aggregation engine.

    Modelling conventions.
    - The five JSON files are the fields of [World]; every [getX]/[saveX]
      pair is a whole-collection read or write of one field.  The file
      system itself is taken to be reliable: [fs.readFile] and
      [fs.writeFile] do not fail, so the only exceptions are the ones the
      service raises itself ([throw new Error (...)], or the [TypeError] of
      calling [toLowerCase] on [undefined]).
    - An exception does not roll anything back: a computation is a function
      [World -> Result A * World] and the world that comes with an [Err] is
      the one the failed call leaves on disk.
    - JavaScript numbers that hold counters and timestamps are integers
      ([Z]); the two quotients of [updateGlobalStats] are kept as exact
      rationals, the rounding [toFixed(9)] of the floating-point quotient
      is not modelled.
    - A JavaScript object used as a dictionary ([users], [sessions]) is an
      association list in property-enumeration order (array-index keys in
      ascending order first, then the other keys in insertion order), which
      is the order [Object.values] scans.  Keys are looked up as own
      properties: an address that names a member of [Object.prototype]
      (such as "constructor") is outside the model.
    - Records are typed after the wire interfaces ([Promise], [UserData],
      [DeleteRequest]); a field that may be missing from an object is an
      [option].  The object [promiseData] / [updates] received from a
      request body is a record of optional fields.
    - [Date.now()] and [Math.random().toString(36).substr(2, 9)] read two
      oracles carried by the world, each reading advancing a counter.
    - [String.prototype.toLowerCase] is modelled on ASCII letters.
    - Requests are served one after the other ([serve]); the interleaving
      of two asynchronous handlers at their [await] points is not
      modelled. *)

From stdpp Require Import relations.
From Stdlib Require Import ZArith QArith String Ascii DecimalString.
From stdpp Require Import base tactics option list strings numbers.

Local Open Scope string_scope.
Local Open Scope Z_scope.

(** ** Strings *)

Definition lower_ascii (c : ascii) : ascii :=
  let n := N_of_ascii c in
  if ((65 <=? n)%N && (n <=? 90)%N)%bool then ascii_of_N (n + 32) else c.

Fixpoint toLowerCase (s : string) : string :=
  match s with
  | EmptyString => EmptyString
  | String c s' => String (lower_ascii c) (toLowerCase s')
  end.

(** [`${n}`] for an integer [n]. *)
Definition showZ (n : Z) : string := NilZero.string_of_int (Z.to_int n).

(** ** JavaScript objects used as dictionaries *)

Module Obj.
Section Obj.
Context {V : Type}.

Definition t := list (string * V).

Definition digit_of (c : ascii) : option N :=
  let n := N_of_ascii c in
  if ((48 <=? n)%N && (n <=? 57)%N)%bool then Some (n - 48)%N else None.

Fixpoint digits (s : string) (acc : N) : option N :=
  match s with
  | EmptyString => Some acc
  | String c s' =>
      match digit_of c with
      | Some d => digits s' (10 * acc + d)%N
      | None => None
      end
  end.

(** The array index a property key denotes, if it is the canonical
    decimal spelling of an integer below [2^32 - 1]. *)
Definition array_index (k : string) : option N :=
  match k with
  | EmptyString => None
  | String c rest =>
      if (Ascii.eqb c "0" && negb (String.eqb rest ""))%bool then None
      else
        match digits k 0 with
        | Some n => if (n <? 4294967295)%N then Some n else None
        | None => None
        end
  end.

(** Does a new key [k] enumerate before the existing key [k']? *)
Definition key_before (k k' : string) : bool :=
  match array_index k, array_index k' with
  | Some i, Some j => (i <? j)%N
  | Some _, None => true
  | None, _ => false
  end.

(** [o[k]] *)
Fixpoint get (k : string) (o : t) : option V :=
  match o with
  | [] => None
  | (k', v) :: o' => if String.eqb k k' then Some v else get k o'
  end.

Fixpoint replace (k : string) (v : V) (o : t) : t :=
  match o with
  | [] => []
  | (k', v') :: o' =>
      if String.eqb k k' then (k', v) :: o' else (k', v') :: replace k v o'
  end.

Fixpoint add (k : string) (v : V) (o : t) : t :=
  match o with
  | [] => [(k, v)]
  | (k', v') :: o' =>
      if key_before k k' then (k, v) :: o else (k', v') :: add k v o'
  end.

(** [o[k] = v] *)
Definition set (k : string) (v : V) (o : t) : t :=
  match get k o with
  | Some _ => replace k v o
  | None => add k v o
  end.

(** [Object.keys(o)] and [Object.values(o)] *)
Definition keys (o : t) : list string := map fst o.
Definition values (o : t) : list V := map snd o.
End Obj.
Arguments t : clear implicits.
End Obj.

(** ** Records *)

Record User := mkUser {
  address : string;
  reputation : Z;
  completedPromises : Z;
  failedPromises : Z;
  totalPromises : Z;
  streak : Z;
  level : Z;
  joinedAt : Z;
  lastActive : Z
}.

(** A partial user object: [userData] of [createUser], [updates] of
    [updateUser]. *)
Record UserData := mkUserData {
  u_address : option string;
  u_reputation : option Z;
  u_completedPromises : option Z;
  u_failedPromises : option Z;
  u_totalPromises : option Z;
  u_streak : option Z;
  u_level : option Z;
  u_joinedAt : option Z;
  u_lastActive : option Z
}.

(** [{}] *)
Definition no_user_data : UserData :=
  mkUserData None None None None None None None None None.

(** A stored promise.  [createPromise] always writes [id], [createdAt] and
    [updatedAt]; every other property is there when a caller sent it. *)
Record PromiseRec := mkPromise {
  id : string;
  createdAt : Z;
  updatedAt : Z;
  adminAdjustedProgress : option Z;
  paddress : option string;
  message : option string;
  deadline : option Z;
  status : option string;
  proof : option string;
  category : option string;
  difficulty : option string
}.

(** A request body: [promiseData] of [createPromise], [updates] of
    [updatePromise]. *)
Record PromiseData := mkPromiseData {
  d_id : option string;
  d_createdAt : option Z;
  d_updatedAt : option Z;
  d_adminAdjustedProgress : option Z;
  d_address : option string;
  d_message : option string;
  d_deadline : option Z;
  d_status : option string;
  d_proof : option string;
  d_category : option string;
  d_difficulty : option string
}.

Definition no_data : PromiseData :=
  mkPromiseData None None None None None None None None None None None.

Record DeleteRequest := mkDeleteRequest {
  rid : string;
  promiseId : string;
  requesterAddress : string;
  rstatus : string;
  requestedAt : Z;
  processedBy : option string;
  processedAt : option Z
}.

Record Session := mkSession {
  ip : string;
  firstVisit : Z;
  sLastActive : Z
}.

Record GlobalStats := mkStats {
  totalUsers : Z;
  gTotalPromises : Z;
  completionRate : Q;
  averageReputation : Q;
  topPerformer : option string;
  lastUpdated : option Z
}.

(** ** The world: the data directory and the two oracles *)

Record World := mkWorld {
  usersFile : Obj.t User;
  promisesFile : list PromiseRec;
  statsFile : GlobalStats;
  deleteRequestsFile : list DeleteRequest;
  sessionsFile : Obj.t Session;
  date_now : nat -> Z;
  ticks : nat;
  random36 : nat -> string;
  draws : nat
}.

Definition with_users (us : Obj.t User) (w : World) : World :=
  mkWorld us (promisesFile w) (statsFile w) (deleteRequestsFile w)
          (sessionsFile w) (date_now w) (ticks w) (random36 w) (draws w).

Definition with_promises (ps : list PromiseRec) (w : World) : World :=
  mkWorld (usersFile w) ps (statsFile w) (deleteRequestsFile w)
          (sessionsFile w) (date_now w) (ticks w) (random36 w) (draws w).

Definition with_stats (s : GlobalStats) (w : World) : World :=
  mkWorld (usersFile w) (promisesFile w) s (deleteRequestsFile w)
          (sessionsFile w) (date_now w) (ticks w) (random36 w) (draws w).

Definition with_deleteRequests (rs : list DeleteRequest) (w : World) : World :=
  mkWorld (usersFile w) (promisesFile w) (statsFile w) rs
          (sessionsFile w) (date_now w) (ticks w) (random36 w) (draws w).

Definition with_sessions (ss : Obj.t Session) (w : World) : World :=
  mkWorld (usersFile w) (promisesFile w) (statsFile w) (deleteRequestsFile w)
          ss (date_now w) (ticks w) (random36 w) (draws w).

(** ** Exceptions and the service monad *)

Inductive Exn :=
| TypeError (what : string)
| Error (msg : string).

Inductive Result (A : Type) :=
| Ok (a : A)
| Err (e : Exn).
Arguments Ok {A} a.
Arguments Err {A} e.

Definition M (A : Type) : Type := World -> Result A * World.

Definition ret {A} (a : A) : M A := fun w => (Ok a, w).

Definition throw {A} (e : Exn) : M A := fun w => (Err e, w).

Definition bind {A B} (m : M A) (k : A -> M B) : M B :=
  fun w =>
    match m w with
    | (Ok a, w') => k a w'
    | (Err e, w') => (Err e, w')
    end.

(** [try { m } catch (error) { h error }] *)
Definition try_catch {A} (m : M A) (h : Exn -> M A) : M A :=
  fun w =>
    match m w with
    | (Ok a, w') => (Ok a, w')
    | (Err e, w') => h e w'
    end.

Notation "'let*' x ':=' m 'in' k" := (bind m (fun x => k))
  (at level 10, x name, m at level 100, k at level 200, only parsing).
Notation "m ';;' k" := (bind m (fun _ => k))
  (at level 100, k at level 200, right associativity, only parsing).

Definition read {A} (f : World -> A) : M A := fun w => (Ok (f w), w).
Definition write (f : World -> World) : M unit := fun w => (Ok tt, f w).

(** One more reading of the clock, one more random draw. *)
Definition tick (w : World) : World :=
  mkWorld (usersFile w) (promisesFile w) (statsFile w) (deleteRequestsFile w)
          (sessionsFile w) (date_now w) (S (ticks w)) (random36 w) (draws w).

Definition draw (w : World) : World :=
  mkWorld (usersFile w) (promisesFile w) (statsFile w) (deleteRequestsFile w)
          (sessionsFile w) (date_now w) (ticks w) (random36 w) (S (draws w)).

(** The value the next [Date.now()] returns. *)
Definition now (w : World) : Z := date_now w (ticks w).

(** [Date.now()] *)
Definition Date_now : M Z := fun w => (Ok (now w), tick w).

(** [Math.random().toString(36).substr(2, 9)] *)
Definition Math_random36 : M string := fun w => (Ok (random36 w (draws w)), draw w).

(** [address.toLowerCase()], a [TypeError] when [address] is [undefined]. *)
Definition lower (address : option string) : M string :=
  match address with
  | Some a => ret (toLowerCase a)
  | None => throw (TypeError "Cannot read properties of undefined (reading 'toLowerCase')")
  end.

(** ** Object spread *)

(** [{ ...user, ...data }] *)
Definition spread_user (user : User) (data : UserData) : User :=
  {| address := default (address user) (u_address data);
     reputation := default (reputation user) (u_reputation data);
     completedPromises := default (completedPromises user) (u_completedPromises data);
     failedPromises := default (failedPromises user) (u_failedPromises data);
     totalPromises := default (totalPromises user) (u_totalPromises data);
     streak := default (streak user) (u_streak data);
     level := default (level user) (u_level data);
     joinedAt := default (joinedAt user) (u_joinedAt data);
     lastActive := default (lastActive user) (u_lastActive data) |}.

(** [b] if the key is present in the later object, else [a]. *)
Definition over {A} (a b : option A) : option A :=
  match b with
  | Some _ => b
  | None => a
  end.

(** [{ ...promise, ...data }] *)
Definition spread_promise (promise : PromiseRec) (data : PromiseData) : PromiseRec :=
  {| id := default (id promise) (d_id data);
     createdAt := default (createdAt promise) (d_createdAt data);
     updatedAt := default (updatedAt promise) (d_updatedAt data);
     adminAdjustedProgress := over (adminAdjustedProgress promise) (d_adminAdjustedProgress data);
     paddress := over (paddress promise) (d_address data);
     message := over (message promise) (d_message data);
     deadline := over (deadline promise) (d_deadline data);
     status := over (status promise) (d_status data);
     proof := over (proof promise) (d_proof data);
     category := over (category promise) (d_category data);
     difficulty := over (difficulty promise) (d_difficulty data) |}.

Definition set_updatedAt (now : Z) (p : PromiseRec) : PromiseRec :=
  mkPromise (id p) (createdAt p) now (adminAdjustedProgress p) (paddress p)
            (message p) (deadline p) (status p) (proof p) (category p)
            (difficulty p).

Definition set_lastActive (now : Z) (u : User) : User :=
  mkUser (address u) (reputation u) (completedPromises u) (failedPromises u)
         (totalPromises u) (streak u) (level u) (joinedAt u) now.

(** Truthiness of an optional string property and of an optional number. *)
Definition truthy (s : option string) : bool :=
  match s with
  | Some s => negb (String.eqb s "")
  | None => false
  end.

(** [x || 0] *)
Definition or_zero (x : option Z) : Z :=
  match x with
  | Some n => if Z.eqb n 0 then 0 else n
  | None => 0
  end.

(** ** The service: [class UserStorageService] *)

(** *** Sessions *)

Definition getSessions : M (Obj.t Session) :=
  try_catch (read sessionsFile) (fun _ => ret []).

Definition saveSessions (sessions : Obj.t Session) : M unit :=
  try_catch (write (with_sessions sessions)) throw.

(** *** Users and promises: reading and writing *)

Definition getUsers : M (Obj.t User) :=
  try_catch (read usersFile) (fun _ => ret []).

Definition saveUsers (users : Obj.t User) : M unit :=
  try_catch (write (with_users users)) throw.

Definition getUser (address : option string) : M (option User) :=
  try_catch
    (let* users := getUsers in
     let* key := lower address in
     ret (Obj.get key users))
    (fun _ => ret None).

Record Filter := mkFilter {
  f_address : option string;
  f_status : option string;
  f_category : option string
}.

(** [filter = {}] *)
Definition no_filter : Filter := mkFilter None None None.

Definition same_address (a : string) (p : PromiseRec) : M bool :=
  let* pa := lower (paddress p) in
  ret (String.eqb pa (toLowerCase a)).

Fixpoint filterM (f : PromiseRec -> M bool) (l : list PromiseRec) : M (list PromiseRec) :=
  match l with
  | [] => ret []
  | p :: l' =>
      let* b := f p in
      let* r := filterM f l' in
      ret (if b then p :: r else r)
  end.

Definition getPromises (flt : Filter) : M (list PromiseRec) :=
  try_catch
    (let* promises := read promisesFile in
     let* promises :=
       match f_address flt with
       | Some a => if truthy (Some a) then filterM (same_address a) promises
                   else ret promises
       | None => ret promises
       end in
     let promises :=
       if truthy (f_status flt)
       then filter (fun p => status p = f_status flt) promises else promises in
     let promises :=
       if truthy (f_category flt)
       then filter (fun p => category p = f_category flt) promises else promises in
     ret promises)
    (fun _ => ret []).

Definition savePromises (promises : list PromiseRec) : M unit :=
  try_catch (write (with_promises promises)) throw.

(** *** Global statistics *)

(** The reducer of [topPerformer]:
    [(top, user) => (user.reputation > (top?.reputation || 0) ? user : top)] *)
Definition top_step (top : option User) (user : User) : option User :=
  if or_zero (reputation <$> top) <? reputation user then Some user else top.

(** [topPerformer?.address || null] *)
Definition address_or_null (top : option User) : option string :=
  match top with
  | Some u => if truthy (Some (address u)) then Some (address u) else None
  | None => None
  end.

(** The statistics [updateGlobalStats] computes from the three collections
    it has read, stamped with the time [now]. *)
Definition aggregate (users : Obj.t User) (promises : list PromiseRec)
    (sessions : Obj.t Session) (now : Z) : GlobalStats :=
  let userArray := Obj.values users in
  let totalUsers := Z.of_nat (length (Obj.keys sessions)) in
  let totalPromises := Z.of_nat (length promises) in
  let completedPromises :=
    Z.of_nat (length (filter (fun p => status p = Some "completed") promises)) in
  let completionRate :=
    if 0 <? totalPromises
    then (inject_Z completedPromises / inject_Z totalPromises * inject_Z 100)%Q
    else 0%Q in
  let totalReputation := fold_left (fun sum user => sum + reputation user) userArray 0 in
  let averageReputation :=
    if 0 <? totalUsers
    then (inject_Z totalReputation / inject_Z totalUsers)%Q
    else 0%Q in
  let topPerformer := fold_left top_step userArray None in
  {| totalUsers := totalUsers;
     gTotalPromises := totalPromises;
     completionRate := completionRate;
     averageReputation := averageReputation;
     topPerformer := address_or_null topPerformer;
     lastUpdated := Some now |}.

Definition updateGlobalStats : M GlobalStats :=
  try_catch
    (let* users := getUsers in
     let* promises := getPromises no_filter in
     let* sessions := getSessions in
     let* now := Date_now in
     let stats := aggregate users promises sessions now in
     write (with_stats stats) ;;
     ret stats)
    throw.

Definition recordSession (sessionId ipAddress : string) : M unit :=
  try_catch
    (let* sessions := getSessions in
     match Obj.get sessionId sessions with
     | None =>
         let* first := Date_now in
         let* last := Date_now in
         saveSessions (Obj.set sessionId (mkSession ipAddress first last) sessions) ;;
         updateGlobalStats ;;
         ret tt
     | Some s =>
         let* now := Date_now in
         saveSessions (Obj.set sessionId (mkSession (ip s) (firstVisit s) now) sessions)
     end)
    (fun _ => ret tt).

(** *** User management *)

Definition createUser (address : option string) (userData : UserData) : M User :=
  try_catch
    (let* users := getUsers in
     let* joined := Date_now in
     let* active := Date_now in
     (* users[address.toLowerCase()] = newUser: with an undefined address
        the key expression throws and nothing below is reached *)
     let* key := lower address in
     let newUser :=
       spread_user (mkUser (default "" address) 0 0 0 0 0 1 joined active) userData in
     saveUsers (Obj.set key newUser users) ;;
     updateGlobalStats ;;
     ret newUser)
    throw.

Definition not_found (what : string) (name : option string) (dot : string) : Exn :=
  Error (what ++ " " ++ default "undefined" name ++ " not found" ++ dot).

Definition updateUser (address : option string) (updates : UserData) : M User :=
  try_catch
    (let* users := getUsers in
     let* key := lower address in
     match Obj.get key users with
     | None => throw (not_found "User" address "")
     | Some user =>
         let* now := Date_now in
         let user' := set_lastActive now (spread_user user updates) in
         saveUsers (Obj.set key user' users) ;;
         ret user'
     end)
    throw.

(** *** The reputation engine *)

Definition updateUserReputation (address : option string) (status : string) : M unit :=
  try_catch
    (let* user := getUser address in
     match user with
     | None => ret tt
     | Some user =>
         let '(reputationChange, updates) :=
           if String.eqb status "completed" then
             (10, mkUserData None None (Some (completedPromises user + 1)) None None
                             (Some (streak user + 1)) None None None)
           else if String.eqb status "failed" then
             (-5, mkUserData None None None (Some (failedPromises user + 1)) None
                             (Some 0) None None None)
           else (0, no_user_data) in
         let reputation' := Z.max 0 (reputation user + reputationChange) in
         let level' := reputation' / 50 + 1 in
         let updates :=
           mkUserData (u_address updates) (Some reputation')
                      (u_completedPromises updates) (u_failedPromises updates)
                      (u_totalPromises updates) (u_streak updates) (Some level')
                      (u_joinedAt updates) (u_lastActive updates) in
         updateUser address updates ;;
         ret tt
     end)
    (fun _ => ret tt).

(** *** The promise lifecycle *)

Definition createPromise (promiseData : PromiseData) : M PromiseRec :=
  try_catch
    (let* promises := getPromises no_filter in
     let* found := getUser (d_address promiseData) in
     let* user :=
       match found with
       | Some user => ret user
       | None => createUser (d_address promiseData) no_user_data
       end in
     let* stamp := Date_now in
     let* suffix := Math_random36 in
     let* created := Date_now in
     let* updated := Date_now in
     let newPromise :=
       spread_promise
         (mkPromise ("promise_" ++ showZ stamp ++ "_" ++ suffix) created updated
                    None None None None None None None None)
         promiseData in
     savePromises (promises ++ [newPromise])%list ;;
     updateUser (d_address promiseData)
       (mkUserData None None None None (Some (totalPromises user + 1)) None None None None) ;;
     updateGlobalStats ;;
     ret newPromise)
    throw.

Definition updatePromise (promiseId : string) (updates : PromiseData) : M PromiseRec :=
  try_catch
    (let* promises := getPromises no_filter in
     match list_find (fun p => id p = promiseId) promises with
     | None => throw (not_found "Promise" (Some promiseId) "")
     | Some (promiseIndex, oldPromise) =>
         let* now := Date_now in
         let promise' := set_updatedAt now (spread_promise oldPromise updates) in
         let promises := <[promiseIndex := promise']> promises in
         savePromises promises ;;
         (match d_status updates with
          | Some s =>
              if (truthy (Some s) && negb (bool_decide (Some s = status oldPromise)))%bool
              then updateUserReputation (paddress oldPromise) s
              else ret tt
          | None => ret tt
          end) ;;
         updateGlobalStats ;;
         ret promise'
     end)
    throw.

Definition deletePromise (promiseId : string) : M unit :=
  try_catch
    (let* promises := getPromises no_filter in
     match list_find (fun p => id p = promiseId) promises with
     | None => throw (not_found "Promise" (Some promiseId) "")
     | Some (_, promiseToDelete) =>
         let promises := filter (fun p => id p <> promiseId) promises in
         savePromises promises ;;
         let* user := getUser (paddress promiseToDelete) in
         (match user with
          | Some user =>
              updateUser (paddress promiseToDelete)
                (mkUserData None None None None
                            (Some (Z.max 0 (totalPromises user - 1))) None None None None) ;;
              ret tt
          | None => ret tt
          end) ;;
         updateGlobalStats ;;
         ret tt
     end)
    throw.

(** *** The moderation workflow *)

Definition getDeleteRequests (includeAll : bool) : M (list DeleteRequest) :=
  try_catch
    (let* requests := read deleteRequestsFile in
     ret (if includeAll then requests
          else filter (fun req => rstatus req = "pending") requests))
    (fun _ => ret []).

Definition saveDeleteRequests (requests : list DeleteRequest) : M unit :=
  try_catch (write (with_deleteRequests requests)) throw.

Definition addDeleteRequest (promiseId' requesterAddress' : string) : M DeleteRequest :=
  try_catch
    (let* requests := getDeleteRequests true in
     match list_find (fun req => promiseId req = promiseId' /\ rstatus req = "pending")
                     requests with
     | Some (_, existingRequest) => ret existingRequest
     | None =>
         let* stamp := Date_now in
         let* suffix := Math_random36 in
         let* requested := Date_now in
         let newRequest :=
           {| rid := "delreq_" ++ showZ stamp ++ "_" ++ suffix;
              promiseId := promiseId';
              requesterAddress := requesterAddress';
              rstatus := "pending";
              requestedAt := requested;
              processedBy := None;
              processedAt := None |} in
         saveDeleteRequests (requests ++ [newRequest])%list ;;
         ret newRequest
     end)
    throw.

Definition updateDeleteRequestStatus (requestId status' adminAddress : string)
  : M DeleteRequest :=
  try_catch
    (let* requests := getDeleteRequests true in
     match list_find (fun req => rid req = requestId) requests with
     | None => throw (not_found "Delete request" (Some requestId) ".")
     | Some (requestIndex, req) =>
         let* now := Date_now in
         let req' :=
           mkDeleteRequest (rid req) (promiseId req) (requesterAddress req)
                           status' (requestedAt req) (Some adminAddress)
                           (Some now) in
         let requests := <[requestIndex := req']> requests in
         saveDeleteRequests requests ;;
         (if String.eqb status' "approved"
          then deletePromise (promiseId req')
          else ret tt) ;;
         ret req'
     end)
    throw.

(** *** Read-only views *)

Definition getGlobalStats : M (option GlobalStats) :=
  try_catch (let* stats := read statsFile in ret (Some stats)) (fun _ => ret None).

Record LeaderboardEntry := mkEntry {
  e_address : string;
  e_reputation : Z;
  e_completedPromises : Z;
  e_level : Z;
  e_streak : Z
}.

(** [userArray.sort((a, b) => b.reputation - a.reputation)]: the sort of
    [Array.prototype.sort] is stable, so on integer reputations its result
    is the one arrangement in descending order that keeps equal users in
    their original order; it is computed here by insertion from the
    right. *)
Fixpoint insert_desc (u : User) (sorted : list User) : list User :=
  match sorted with
  | [] => [u]
  | v :: rest =>
      if reputation v <=? reputation u then u :: v :: rest
      else v :: insert_desc u rest
  end.

Definition sort_by_reputation (l : list User) : list User := foldr insert_desc [] l.

(** [array.slice(0, limit)] *)
Definition slice0 {A} (l : list A) (limit : Z) : list A :=
  if limit <? 0 then take (Z.to_nat (Z.max 0 (Z.of_nat (length l) + limit))) l
  else take (Z.to_nat limit) l.

Definition entry (user : User) : LeaderboardEntry :=
  {| e_address := address user;
     e_reputation := reputation user;
     e_completedPromises := completedPromises user;
     e_level := level user;
     e_streak := streak user |}.

Definition getLeaderboard (limit : Z) : M (list LeaderboardEntry) :=
  try_catch
    (let* users := getUsers in
     let userArray := Obj.values users in
     ret (map entry (slice0 (sort_by_reputation userArray) limit)))
    (fun _ => ret []).



(** *** Start-up *)

(** The data directory right after [initializeFile] wrote every default. *)
Definition fresh_disk (clock : nat -> Z) (rand : nat -> string) : World :=
  {| usersFile := [];
     promisesFile := [];
     statsFile := mkStats 0 0 0%Q 0%Q None None;
     deleteRequestsFile := [];
     sessionsFile := [];
     date_now := clock; ticks := 0%nat;
     random36 := rand; draws := 0%nat |}.

Definition initializeStorage : M unit :=
  try_catch (updateGlobalStats ;; ret tt) (fun _ => ret tt).

Definition boot (clock : nat -> Z) (rand : nat -> string) : World :=
  snd (initializeStorage (fresh_disk clock rand)).

(** ** The HTTP front ends: the mutating routes of [main-backend-server.js] *)

Inductive Request :=
| PostRecordSession (sessionId ipAddress : string)
| PostPromises (promiseData : PromiseData)
| PutPromise (promiseId : string) (updates : PromiseData)
| PostDeleteRequests (promiseId requesterAddress : string)
| AdminApproveDelete (requestId adminAddress : string)
| AdminRejectDelete (requestId adminAddress : string)
| AdminUpdatePromiseProgress (promiseId : string) (progress : Z).

Definition handle (r : Request) : M unit :=
  match r with
  | PostRecordSession sessionId ipAddress => recordSession sessionId ipAddress
  | PostPromises promiseData => createPromise promiseData ;; ret tt
  | PutPromise promiseId updates => updatePromise promiseId updates ;; ret tt
  | PostDeleteRequests promiseId requesterAddress =>
      addDeleteRequest promiseId requesterAddress ;; ret tt
  | AdminApproveDelete requestId adminAddress =>
      updateDeleteRequestStatus requestId "approved" adminAddress ;; ret tt
  | AdminRejectDelete requestId adminAddress =>
      updateDeleteRequestStatus requestId "rejected" adminAddress ;; ret tt
  | AdminUpdatePromiseProgress promiseId progress =>
      updatePromise promiseId
        (mkPromiseData None None None (Some progress) None None None None None None
                       None) ;;
      ret tt
  end.

(** The data directory after a sequence of requests, served one after the
    other; a request that raises leaves whatever it had written. *)
Definition serve (rs : list Request) (w : World) : World :=
  fold_left (fun w r => snd (handle r w)) rs w.

(** ** Dispatch: paths, methods and the admin check *)

(** [s.split(sep)] for a one-character separator. *)
Fixpoint split_on (sep : ascii) (s : string) : list string :=
  match s with
  | EmptyString => [""]
  | String c s' =>
      if Ascii.eqb c sep then "" :: split_on sep s'
      else match split_on sep s' with
           | t :: ts => String c t :: ts
           | [] => [String c ""]
           end
  end.

(** What the main server does with a method and a pathname, before any
    body is read. *)
Inductive MainRoute :=
| MainPreflight
| MainRecordSession
| MainListPromises
| MainCreatePromise
| MainUpdatePromise (promiseId : option string)
| MainGetUser (address : option string)
| MainGlobalStats
| MainCreateDeleteRequest
| MainNotFound.

Definition main_route (method path : string) : MainRoute :=
  if String.eqb method "OPTIONS" then MainPreflight
  else if (String.eqb path "/record-session" && String.eqb method "POST")%bool
  then MainRecordSession
  else if (String.eqb path "/promises" && String.eqb method "GET")%bool
  then MainListPromises
  else if (String.eqb path "/promises" && String.eqb method "POST")%bool
  then MainCreatePromise
  else if (String.prefix "/promises/" path && String.eqb method "PUT")%bool
  then MainUpdatePromise (split_on "/" path !! 2%nat)
  else if (String.prefix "/users/" path && String.eqb method "GET")%bool
  then MainGetUser (split_on "/" path !! 2%nat)
  else if (String.eqb path "/global-stats" && String.eqb method "GET")%bool
  then MainGlobalStats
  else if (String.eqb path "/delete-requests" && String.eqb method "POST")%bool
  then MainCreateDeleteRequest
  else MainNotFound.

Definition ADMIN_WALLET_ADDRESS : string :=
  toLowerCase "0x84a610d2da45f123be33b64b4c001b25b399ff5c2".

(** The admin server's answer to a method and an [Authorization] header,
    before it looks at the path. *)
Inductive AdminGate :=
| AdminPreflight
| AdminForbidden
| AdminAdmitted (adminAddress : string).

Definition admin_gate (method : string) (authHeader : option string) : AdminGate :=
  if String.eqb method "OPTIONS" then AdminPreflight
  else
    let adminAddress :=
      match authHeader with
      | Some h => if truthy (Some h) then split_on " " h !! 1%nat else None
      | None => None
      end in
    match adminAddress with
    | Some a =>
        if (negb (truthy (Some a))
            || negb (String.eqb (toLowerCase a) ADMIN_WALLET_ADDRESS))%bool
        then AdminForbidden
        else AdminAdmitted a
    | None => AdminForbidden
    end.

(** ** A concrete clock, random source and request body *)

Definition clock0 : nat -> Z := fun n => 1000 + Z.of_nat n.
Definition rand0 : nat -> string := fun n => "r" ++ showZ (Z.of_nat n).

Definition data (a : string) (msg : string) (st : option string) : PromiseData :=
  mkPromiseData None None None None (Some a) (Some msg) (Some 2000) st None
                (Some "fitness") (Some "easy").

(** * Vocabulary of the statements

    Closed forms of what the service computes (the run lemmas below prove
    them equal to the operations), the invariants, and the concrete stores
    the examples run on. *)


(** The user record [updateUserReputation] stores at time [t]. *)
Definition outcome (t : Z) (u : User) (s : string) : User :=
  if String.eqb s "completed" then
    let r := Z.max 0 (reputation u + 10) in
    mkUser (address u) r (completedPromises u + 1) (failedPromises u)
           (totalPromises u) (streak u + 1) (r / 50 + 1) (joinedAt u) t
  else if String.eqb s "failed" then
    let r := Z.max 0 (reputation u + -5) in
    mkUser (address u) r (completedPromises u) (failedPromises u + 1)
           (totalPromises u) 0 (r / 50 + 1) (joinedAt u) t
  else
    let r := Z.max 0 (reputation u + 0) in
    mkUser (address u) r (completedPromises u) (failedPromises u)
           (totalPromises u) (streak u) (r / 50 + 1) (joinedAt u) t.

Definition user_ok (u : User) : Prop :=
  0 <= reputation u /\ level u = reputation u / 50 + 1.

(** The reputation step inside [updatePromise]. *)
Definition settle (oldPromise : PromiseRec) (updates : PromiseData) : M unit :=
  match d_status updates with
  | Some s =>
      if (truthy (Some s) && negb (bool_decide (Some s = status oldPromise)))%bool
      then updateUserReputation (paddress oldPromise) s
      else ret tt
  | None => ret tt
  end.

(** The store after one promise was created for "0xABC". *)
Definition one_promise : World :=
  serve [PostPromises (data "0xABC" "run 5k" (Some "active"))] (boot clock0 rand0).

(** The object literal of [createPromise] before [promiseData] is spread
    over it, built in world [w]. *)
Definition generated (w : World) : PromiseRec :=
  mkPromise ("promise_" ++ showZ (now w) ++ "_" ++ random36 w (draws w))
            (now (tick w)) (now (tick (tick w)))
            None None None None None None None None.

(** [{ totalPromises: n }] *)
Definition total_only (n : Z) : UserData :=
  mkUserData None None None None (Some n) None None None None.

(** The user [createUser] builds in world [w]. *)
Definition blank_user (a : string) (w : World) : User :=
  mkUser a 0 0 0 0 0 1 (now w) (now (tick w)).

(** The world [deletePromise] leaves when [p] is its [promiseToDelete]. *)
Definition after_delete (pid : string) (p : PromiseRec) (w : World) : World :=
  let w1 := with_promises (filter (fun p => id p <> pid) (promisesFile w)) w in
  let w2 :=
    match paddress p with
    | Some a =>
        match Obj.get (toLowerCase a) (usersFile w) with
        | Some u =>
            let u' := set_lastActive (now w1)
                        (spread_user u (total_only (Z.max 0 (totalPromises u - 1)))) in
            with_users (Obj.set (toLowerCase a) u' (usersFile w)) (tick w1)
        | None => w1
        end
    | None => w1
    end in
  snd (updateGlobalStats w2).

(** The request as [updateDeleteRequestStatus] rewrites it at time [t]. *)
Definition processed (req : DeleteRequest) (st admin : string) (t : Z) : DeleteRequest :=
  mkDeleteRequest (rid req) (promiseId req) (requesterAddress req) st
                  (requestedAt req) (Some admin) (Some t).

Definition pending_for (pid : string) (r : DeleteRequest) : Prop :=
  promiseId r = pid /\ rstatus r = "pending".

#[local] Instance pending_for_dec pid r : Decision (pending_for pid r).
Proof. unfold pending_for. apply _. Defined.

(** The request [addDeleteRequest] builds in world [w]. *)
Definition new_request (pid requester : string) (w : World) : DeleteRequest :=
  {| rid := "delreq_" ++ showZ (now w) ++ "_" ++ random36 w (draws w);
     promiseId := pid;
     requesterAddress := requester;
     rstatus := "pending";
     requestedAt := now (tick w);
     processedBy := None;
     processedAt := None |}.

(** The store after the promise of [one_promise] got a delete request. *)
Definition one_request : World :=
  serve [PostDeleteRequests "promise_1004_r0" "0xabc"] one_promise.




Definition users_ok (w : World) : Prop := Forall user_ok (Obj.values (usersFile w)).

Definition one_pending (w : World) : Prop :=
  forall pid, (length (filter (pending_for pid) (deleteRequestsFile w)) <= 1)%nat.

(** [u] is the first user of the scan [us] holding the maximum reputation. *)
Definition first_max (us : list User) (u : User) : Prop :=
  exists before after,
    us = (before ++ u :: after)%list /\
    (forall x, x ∈ before -> reputation x < reputation u) /\
    (forall x, x ∈ after -> reputation x <= reputation u).

(** One write to the users dictionary, as the service performs it: the
    blank record of [createUser] under a new key, a new [totalPromises]
    (one more, or one less floored at 0) through [updateUser], or the
    outcome of the reputation engine. *)
Inductive user_write (us : Obj.t User) : Obj.t User -> Prop :=
| write_blank a t1 t2 :
    Obj.get (toLowerCase a) us = None ->
    user_write us (Obj.set (toLowerCase a) (mkUser a 0 0 0 0 0 1 t1 t2) us)
| write_total a u n t :
    Obj.get (toLowerCase a) us = Some u ->
    n = totalPromises u + 1 \/ n = Z.max 0 (totalPromises u - 1) ->
    user_write us
      (Obj.set (toLowerCase a) (set_lastActive t (spread_user u (total_only n))) us)
| write_outcome a u s t :
    Obj.get (toLowerCase a) us = Some u ->
    user_write us (Obj.set (toLowerCase a) (outcome t u s) us).

Definition counters_ok (u : User) : Prop :=
  0 <= completedPromises u /\ 0 <= failedPromises u /\
  0 <= totalPromises u /\ 0 <= streak u.



(** A string in which the character [sep] does not occur. *)
Fixpoint free_of (sep : ascii) (s : string) : Prop :=
  match s with
  | EmptyString => True
  | String c s' => c <> sep /\ free_of sep s'
  end.

(** * Properties *)

(** ** Dictionaries *)

Section ObjFacts.
Context {V : Type}.
Implicit Types (o : Obj.t V) (k : string) (v : V).

Lemma get_replace_same k v o :
  is_Some (Obj.get k o) -> Obj.get k (Obj.replace k v o) = Some v.
Proof.
  induction o as [|[k' v'] o IH]; simpl; intros Hs.
  - by destruct Hs.
  - destruct (String.eqb k k') eqn:E; simpl; rewrite E; auto.
Qed.

Lemma get_replace_other k k' v o :
  k' <> k -> Obj.get k' (Obj.replace k v o) = Obj.get k' o.
Proof.
  intros Hne. induction o as [|[k1 v1] o IH]; simpl; [done|].
  destruct (String.eqb k k1) eqn:E; simpl.
  - apply String.eqb_eq in E. subst k1.
    destruct (String.eqb k' k) eqn:E'; [|done].
    apply String.eqb_eq in E'. done.
  - by rewrite IH.
Qed.

Lemma get_add_same k v o :
  Obj.get k o = None -> Obj.get k (Obj.add k v o) = Some v.
Proof.
  induction o as [|[k' v'] o IH]; simpl.
  - by rewrite String.eqb_refl.
  - destruct (String.eqb k k') eqn:E; [done|]. intros Hn.
    destruct (Obj.key_before k k'); simpl.
    + by rewrite String.eqb_refl.
    + rewrite E. auto.
Qed.

Lemma get_add_other k k' v o :
  k' <> k -> Obj.get k' (Obj.add k v o) = Obj.get k' o.
Proof.
  intros Hne. induction o as [|[k1 v1] o IH]; simpl.
  - destruct (String.eqb k' k) eqn:E; [|done].
    apply String.eqb_eq in E. done.
  - destruct (Obj.key_before k k1); simpl.
    + destruct (String.eqb k' k) eqn:E; [|done].
      apply String.eqb_eq in E. done.
    + by rewrite IH.
Qed.

Lemma get_set_same k v o : Obj.get k (Obj.set k v o) = Some v.
Proof.
  unfold Obj.set. destruct (Obj.get k o) eqn:E.
  - apply get_replace_same. by rewrite E.
  - by apply get_add_same.
Qed.

Lemma get_set_other k k' v o :
  k' <> k -> Obj.get k' (Obj.set k v o) = Obj.get k' o.
Proof.
  intros Hne. unfold Obj.set. destruct (Obj.get k o).
  - by apply get_replace_other.
  - by apply get_add_other.
Qed.

Lemma keys_replace k v o : Obj.keys (Obj.replace k v o) = Obj.keys o.
Proof.
  induction o as [|[k' v'] o IH]; simpl; [done|].
  destruct (String.eqb k k'); simpl; [done|]. f_equal. apply IH.
Qed.

Lemma set_present k v v0 o :
  Obj.get k o = Some v0 -> Obj.set k v o = Obj.replace k v o.
Proof. intros H. unfold Obj.set. by rewrite H. Qed.

Lemma Forall_values_replace (P : V -> Prop) k v o :
  Forall P (Obj.values o) -> P v -> Forall P (Obj.values (Obj.replace k v o)).
Proof.
  intros Ho Hv. induction o as [|[k' v'] o IH]; simpl in *; [done|].
  inversion Ho; subst.
  destruct (String.eqb k k'); simpl; constructor; auto.
Qed.

Lemma Forall_values_add (P : V -> Prop) k v o :
  Forall P (Obj.values o) -> P v -> Forall P (Obj.values (Obj.add k v o)).
Proof.
  intros Ho Hv. induction o as [|[k' v'] o IH]; simpl in *.
  - by constructor.
  - inversion Ho; subst.
    destruct (Obj.key_before k k'); simpl; constructor; auto.
Qed.

Lemma Forall_values_set (P : V -> Prop) k v o :
  Forall P (Obj.values o) -> P v -> Forall P (Obj.values (Obj.set k v o)).
Proof.
  intros Ho Hv. unfold Obj.set. destruct (Obj.get k o).
  - by apply Forall_values_replace.
  - by apply Forall_values_add.
Qed.

Lemma get_Some_values k v o : Obj.get k o = Some v -> v ∈ Obj.values o.
Proof.
  induction o as [|[k' v'] o IH]; simpl; [done|].
  destruct (String.eqb k k').
  - intros [= ->]. apply list_elem_of_here.
  - intros H. apply list_elem_of_further. auto.
Qed.
End ObjFacts.

(** ** Running the building blocks *)

Section Runs.
Implicit Types (w : World) (a : string).

Lemma getUser_run a w :
  getUser (Some a) w = (Ok (Obj.get (toLowerCase a) (usersFile w)), w).
Proof. reflexivity. Qed.

Lemma getUser_undefined w : getUser None w = (Ok None, w).
Proof. reflexivity. Qed.

Lemma getPromises_run w : getPromises no_filter w = (Ok (promisesFile w), w).
Proof. reflexivity. Qed.

Lemma updateGlobalStats_run w :
  updateGlobalStats w =
    let stats := aggregate (usersFile w) (promisesFile w) (sessionsFile w) (now w) in
    (Ok stats, with_stats stats (tick w)).
Proof. reflexivity. Qed.

Lemma updateUser_run a updates w user :
  Obj.get (toLowerCase a) (usersFile w) = Some user ->
  updateUser (Some a) updates w =
    let user' := set_lastActive (now w) (spread_user user updates) in
    (Ok user', with_users (Obj.set (toLowerCase a) user' (usersFile w)) (tick w)).
Proof.
  intros H. unfold updateUser, try_catch, bind, getUsers, lower, ret, read; simpl.
  rewrite H. reflexivity.
Qed.

Lemma updateUser_missing a updates w :
  Obj.get (toLowerCase a) (usersFile w) = None ->
  updateUser (Some a) updates w = (Err (not_found "User" (Some a) ""), w).
Proof.
  intros H. unfold updateUser, try_catch, bind, getUsers, lower, ret, read; simpl.
  rewrite H. reflexivity.
Qed.

Lemma createUser_run a w :
  createUser (Some a) no_user_data w =
    let w2 := tick (tick w) in
    let newUser := mkUser a 0 0 0 0 0 1 (now w) (now (tick w)) in
    let w3 := with_users (Obj.set (toLowerCase a) newUser (usersFile w)) w2 in
    (Ok newUser,
     with_stats (aggregate (usersFile w3) (promisesFile w3) (sessionsFile w3) (now w3))
                (tick w3)).
Proof. reflexivity. Qed.

Lemma createUser_undefined w :
  createUser None no_user_data w =
    (Err (TypeError "Cannot read properties of undefined (reading 'toLowerCase')"),
     tick (tick w)).
Proof. reflexivity. Qed.
End Runs.

(** ** The reputation engine *)

Lemma updateUserReputation_run a s w u :
  Obj.get (toLowerCase a) (usersFile w) = Some u ->
  updateUserReputation (Some a) s w =
    (Ok tt, with_users (Obj.set (toLowerCase a) (outcome (now w) u s) (usersFile w))
                       (tick w)).
Proof.
  intros H. unfold updateUserReputation, try_catch at 1, bind at 1.
  rewrite getUser_run, H. unfold outcome.
  destruct (String.eqb s "completed"); [|destruct (String.eqb s "failed")];
    unfold bind; erewrite updateUser_run by eassumption; reflexivity.
Qed.

Lemma updateUserReputation_absent a s w :
  Obj.get (toLowerCase a) (usersFile w) = None ->
  updateUserReputation (Some a) s w = (Ok tt, w).
Proof.
  intros H. unfold updateUserReputation, try_catch at 1, bind at 1.
  by rewrite getUser_run, H.
Qed.

Lemma updateUserReputation_undefined s w :
  updateUserReputation None s w = (Ok tt, w).
Proof. reflexivity. Qed.

Lemma outcome_ok t u s : user_ok (outcome t u s).
Proof.
  unfold outcome, user_ok.
  destruct (String.eqb s "completed"); [|destruct (String.eqb s "failed")];
    simpl; split; auto; lia.
Qed.

(** ** The promise lifecycle *)

Lemma updateUserReputation_ok a s w : fst (updateUserReputation a s w) = Ok tt.
Proof.
  unfold updateUserReputation, try_catch.
  match goal with |- context [match ?m w with _ => _ end] => destruct (m w) as [[[]|e] w'] end;
    reflexivity.
Qed.

Lemma settle_ok p updates w : fst (settle p updates w) = Ok tt.
Proof.
  unfold settle. destruct (d_status updates) as [s|]; [|done].
  destruct (_ && _)%bool; [apply updateUserReputation_ok|done].
Qed.

Lemma updatePromise_run pid updates w i p :
  list_find (fun p => id p = pid) (promisesFile w) = Some (i, p) ->
  updatePromise pid updates w =
    let p' := set_updatedAt (now w) (spread_promise p updates) in
    let w1 := with_promises (<[i := p']> (promisesFile w)) (tick w) in
    (Ok p', snd (updateGlobalStats (snd (settle p updates w1)))).
Proof.
  intros H. unfold updatePromise, try_catch at 1, bind at 1.
  rewrite getPromises_run, H. cbv zeta.
  unfold bind at 1. unfold Date_now.
  unfold bind at 1. unfold savePromises, try_catch at 1, write.
  unfold bind at 1. fold (settle p updates).
  pose proof (settle_ok p updates
    (with_promises (<[i:=set_updatedAt (now w) (spread_promise p updates)]> (promisesFile w))
       (tick w))) as Hs.
  destruct (settle _ _ _) as [r w2]. simpl in Hs. subst r.
  reflexivity.
Qed.

Lemma updatePromise_missing pid updates w :
  list_find (fun p => id p = pid) (promisesFile w) = None ->
  updatePromise pid updates w = (Err (not_found "Promise" (Some pid) ""), w).
Proof.
  intros H. unfold updatePromise, try_catch at 1, bind at 1.
  by rewrite getPromises_run, H.
Qed.

Lemma truthy_nonempty s : s <> "" -> truthy (Some s) = true.
Proof.
  intros H. simpl. destruct (String.eqb s "") eqn:E; [|done].
  apply String.eqb_eq in E. done.
Qed.

(** C1.  When [updatePromise] moves a promise to a status it did not have,
    the owner's record (reputation not negative, as the data model has it)
    is rewritten as follows.  For "completed": reputation + 10,
    completedPromises + 1, streak + 1.  For "failed": reputation
    max(0, reputation - 5), failedPromises + 1, streak 0.  In both cases the
    stored level is floor(new reputation / 50) + 1. *)
Theorem reputation_outcomes w pid updates i p a u s :
  list_find (fun p => id p = pid) (promisesFile w) = Some (i, p) ->
  d_status updates = Some s ->
  s = "completed" \/ s = "failed" ->
  status p <> Some s ->
  paddress p = Some a ->
  Obj.get (toLowerCase a) (usersFile w) = Some u ->
  0 <= reputation u ->
  exists u',
    Obj.get (toLowerCase a) (usersFile (snd (updatePromise pid updates w))) = Some u' /\
    (s = "completed" ->
       reputation u' = reputation u + 10 /\
       completedPromises u' = completedPromises u + 1 /\
       streak u' = streak u + 1) /\
    (s = "failed" ->
       reputation u' = Z.max 0 (reputation u - 5) /\
       failedPromises u' = failedPromises u + 1 /\
       streak u' = 0) /\
    level u' = reputation u' / 50 + 1.
Proof.
  intros Hfind Hst Hs Hchg Ha Hu Hrep.
  rewrite (updatePromise_run _ _ _ _ _ Hfind). cbv zeta.
  unfold settle. rewrite Hst, truthy_nonempty by (destruct Hs; subst; done).
  rewrite bool_decide_eq_false_2 by congruence. cbn [andb negb].
  rewrite Ha. erewrite updateUserReputation_run by exact Hu.
  rewrite updateGlobalStats_run. simpl.
  exists (outcome (now (tick w)) u s). rewrite get_set_same.
  split; [done|]. unfold outcome.
  destruct Hs as [-> | ->]; simpl; repeat split; try done; try lia.
Qed.

(** A run of C1: a promise of "0xABC" is created and completed. *)
Lemma reputation_outcomes_witness :
  exists u',
    Obj.get "0xabc"
      (usersFile (snd (updatePromise "promise_1004_r0"
         (mkPromiseData None None None None None None None (Some "completed")
                        None None None)
         (serve [PostPromises (data "0xABC" "run 5k" (Some "active"))]
                (boot clock0 rand0))))) = Some u' /\
    reputation u' = 10 /\ completedPromises u' = 1 /\ streak u' = 1 /\ level u' = 1.
Proof.
  destruct (reputation_outcomes
    (serve [PostPromises (data "0xABC" "run 5k" (Some "active"))] (boot clock0 rand0))
    "promise_1004_r0"
    (mkPromiseData None None None None None None None (Some "completed") None None None)
    0%nat
    (mkPromise "promise_1004_r0" 1005 1006 None (Some "0xABC") (Some "run 5k")
               (Some 2000) (Some "active") None (Some "fitness") (Some "easy"))
    "0xABC"
    (mkUser "0xABC" 0 0 0 1 0 1 1001 1007)
    "completed")
    as (u' & Hget & Hc & _ & Hl).
  - vm_compute. reflexivity.
  - reflexivity.
  - left. reflexivity.
  - discriminate.
  - reflexivity.
  - vm_compute. reflexivity.
  - simpl. lia.
  - exists u'. destruct (Hc eq_refl) as (Hr & Hcp & Hs).
    simpl in Hr, Hcp, Hs. rewrite Hl, Hr. repeat split; done.
Defined.

(** C8, as stated, fails on [lastActive]: [updateUserReputation] goes
    through [updateUser], which stamps the record with the current time. *)
Lemma reputation_frame_counterexample :
  exists u u',
    Obj.get "0xabc" (usersFile one_promise) = Some u /\
    Obj.get "0xabc"
      (usersFile (snd (updateUserReputation (Some "0xABC") "completed" one_promise)))
      = Some u' /\
    lastActive u = 1007 /\ lastActive u' = 1009 /\
    lastActive u' <> lastActive u.
Proof.
  exists (mkUser "0xABC" 0 0 0 1 0 1 1001 1007),
         (mkUser "0xABC" 10 1 0 1 1 1 1001 1009).
  vm_compute. repeat split; try reflexivity. discriminate.
Qed.

(** C8, amended.  Applying the reputation engine to a stored user rewrites
    that user's entry in place and nothing else: of the fields outside
    reputation, completedPromises, failedPromises, streak and level, the
    address, totalPromises and joinedAt are kept and lastActive becomes the
    current time; completed keeps failedPromises and failed keeps
    completedPromises; every other user, the order of the users and the
    promises, statistics, delete requests and sessions are untouched. *)
Theorem reputation_frame w a s u :
  Obj.get (toLowerCase a) (usersFile w) = Some u ->
  let w' := snd (updateUserReputation (Some a) s w) in
  exists u',
    usersFile w' = Obj.replace (toLowerCase a) u' (usersFile w) /\
    Obj.get (toLowerCase a) (usersFile w') = Some u' /\
    address u' = address u /\
    totalPromises u' = totalPromises u /\
    joinedAt u' = joinedAt u /\
    lastActive u' = now w /\
    (s = "completed" -> failedPromises u' = failedPromises u) /\
    (s = "failed" -> completedPromises u' = completedPromises u) /\
    (forall k, k <> toLowerCase a -> Obj.get k (usersFile w') = Obj.get k (usersFile w)) /\
    Obj.keys (usersFile w') = Obj.keys (usersFile w) /\
    promisesFile w' = promisesFile w /\
    statsFile w' = statsFile w /\
    deleteRequestsFile w' = deleteRequestsFile w /\
    sessionsFile w' = sessionsFile w.
Proof.
  intros Hu w'. subst w'. rewrite (updateUserReputation_run _ s _ _ Hu). simpl.
  exists (outcome (now w) u s).
  rewrite (set_present _ _ _ _ Hu), get_replace_same by (rewrite Hu; eauto).
  repeat split.
  - unfold outcome. by destruct (String.eqb s "completed"), (String.eqb s "failed").
  - unfold outcome. by destruct (String.eqb s "completed"), (String.eqb s "failed").
  - unfold outcome. by destruct (String.eqb s "completed"), (String.eqb s "failed").
  - unfold outcome. by destruct (String.eqb s "completed"), (String.eqb s "failed").
  - intros ->. reflexivity.
  - intros ->. reflexivity.
  - intros k Hk. by apply get_replace_other.
  - apply keys_replace.
Qed.

Lemma reputation_frame_witness :
  exists u',
    Obj.get "0xabc"
      (usersFile (snd (updateUserReputation (Some "0xABC") "failed" one_promise)))
      = Some u' /\
    totalPromises u' = 1 /\ joinedAt u' = 1001 /\ lastActive u' = 1009.
Proof.
  destruct (reputation_frame one_promise "0xABC" "failed"
              (mkUser "0xABC" 0 0 0 1 0 1 1001 1007))
    as (u' & _ & Hget & _ & Ht & Hj & Hl & _).
  - vm_compute. reflexivity.
  - exists u'. split; [exact Hget|]. rewrite Ht, Hj, Hl. vm_compute. auto.
Defined.

Lemma createPromise_run d a w :
  d_address d = Some a ->
  let found := Obj.get (toLowerCase a) (usersFile w) in
  let w0 := match found with
            | Some _ => w
            | None => snd (createUser (Some a) no_user_data w)
            end in
  let user := default (blank_user a w) found in
  let p := spread_promise (generated w0) d in
  let w1 := with_promises (promisesFile w ++ [p]) (tick (tick (draw (tick w0)))) in
  let u' := set_lastActive (now w1) (spread_user user (total_only (totalPromises user + 1))) in
  let w2 := with_users (Obj.set (toLowerCase a) u' (usersFile w0)) (tick w1) in
  createPromise d w = (Ok p, snd (updateGlobalStats w2)).
Proof.
  intros Hd. cbv zeta.
  unfold createPromise, try_catch at 1, bind at 1. rewrite getPromises_run.
  unfold bind at 1. rewrite Hd, getUser_run.
  destruct (Obj.get (toLowerCase a) (usersFile w)) as [u|] eqn:Hu.
  - unfold bind at 1, ret at 1.
    unfold bind at 1, Date_now at 1.
    unfold bind at 1, Math_random36 at 1.
    unfold bind at 1, Date_now at 1.
    unfold bind at 1, Date_now at 1.
    unfold bind at 1, savePromises, try_catch at 1, write.
    unfold bind at 1.
    erewrite updateUser_run by (simpl; exact Hu).
    reflexivity.
  - unfold bind at 1. rewrite createUser_run. cbv zeta.
    unfold bind at 1, Date_now at 1.
    unfold bind at 1, Math_random36 at 1.
    unfold bind at 1, Date_now at 1.
    unfold bind at 1, Date_now at 1.
    unfold bind at 1, savePromises, try_catch at 1, write.
    unfold bind at 1.
    erewrite updateUser_run by (simpl; apply get_set_same).
    reflexivity.
Qed.

Lemma createPromise_undefined d w :
  d_address d = None ->
  createPromise d w =
    (Err (TypeError "Cannot read properties of undefined (reading 'toLowerCase')"),
     tick (tick w)).
Proof.
  intros Hd. unfold createPromise, try_catch at 1, bind at 1. rewrite getPromises_run.
  unfold bind at 1. rewrite Hd, getUser_undefined.
  unfold bind at 1. rewrite createUser_undefined. reflexivity.
Qed.

Lemma createPromise_Ok_address d w p :
  fst (createPromise d w) = Ok p -> exists a, d_address d = Some a.
Proof.
  destruct (d_address d) as [a|] eqn:Hd; [eauto|].
  rewrite (createPromise_undefined _ _ Hd). discriminate.
Qed.






(** C10.  A successful [createPromise] persists the record it returns, and
    in that record the caller's id, createdAt, updatedAt and status stand
    verbatim; the generated id appears only when the body has none; and
    sending the body with a chosen id a second time stores a second promise
    under the same id. *)
Theorem createPromise_caller_fields d w p :
  fst (createPromise d w) = Ok p ->
  let w' := snd (createPromise d w) in
  promisesFile w' = (promisesFile w ++ [p])%list /\
  (forall i, d_id d = Some i -> id p = i) /\
  (forall t, d_createdAt d = Some t -> createdAt p = t) /\
  (forall t, d_updatedAt d = Some t -> updatedAt p = t) /\
  status p = d_status d /\
  (d_id d = None ->
     exists stamp suffix, id p = "promise_" ++ showZ stamp ++ "_" ++ suffix) /\
  (forall i, d_id d = Some i ->
     exists p2, fst (createPromise d w') = Ok p2 /\
                promisesFile (snd (createPromise d w')) = (promisesFile w ++ [p; p2])%list /\
                id p2 = i).
Proof.
  intros Hok w'.
  destruct (createPromise_Ok_address _ _ _ Hok) as [a Ha].
  assert (Hrun : forall w0, exists p0,
             fst (createPromise d w0) = Ok p0 /\
             promisesFile (snd (createPromise d w0)) = (promisesFile w0 ++ [p0])%list /\
             exists g, p0 = spread_promise (generated g) d).
  { intros w0. rewrite (createPromise_run _ _ _ Ha). cbv zeta.
    rewrite updateGlobalStats_run. cbv zeta. cbn [fst snd].
    eexists. split; [reflexivity|]. split; [reflexivity|]. eexists. reflexivity. }
  destruct (Hrun w) as (p0 & Hp0 & Hfile & g & Hg).
  rewrite Hok in Hp0. injection Hp0 as <-. subst w'.
  split; [exact Hfile|]. subst p. simpl.
  split; [by intros i ->|]. split; [by intros t ->|]. split; [by intros t ->|].
  split; [by destruct (d_status d)|].
  split; [intros ->; simpl; eauto|].
  intros i Hi.
  destruct (Hrun (snd (createPromise d w))) as (p2 & Hp2 & Hfile2 & g2 & Hg2).
  exists p2. split; [exact Hp2|]. split.
  - rewrite Hfile2, Hfile, <- app_assoc. reflexivity.
  - subst p2. simpl. by rewrite Hi.
Qed.

Lemma createPromise_caller_fields_witness :
  exists p p2,
    fst (createPromise
           (mkPromiseData (Some "mine") (Some 1) (Some 2) None (Some "0xABC")
                          (Some "run 5k") None (Some "failed") None None None)
           (boot clock0 rand0)) = Ok p /\
    id p = "mine" /\ createdAt p = 1 /\ updatedAt p = 2 /\ status p = Some "failed" /\
    id p2 = "mine".
Proof.
  eexists.
  destruct (createPromise_caller_fields
              (mkPromiseData (Some "mine") (Some 1) (Some 2) None (Some "0xABC")
                             (Some "run 5k") None (Some "failed") None None None)
              (boot clock0 rand0) _ eq_refl)
    as (_ & Hi & Hc & Hu & Hs & _ & Htwice).
  destruct (Htwice "mine" eq_refl) as (p2 & _ & _ & Hi2).
  exists p2. split; [reflexivity|].
  split; [exact (Hi _ eq_refl)|]. split; [exact (Hc _ eq_refl)|].
  split; [exact (Hu _ eq_refl)|]. split; [exact Hs|exact Hi2].
Defined.

(** ** Deletion and the moderation workflow *)

Lemma deletePromise_run pid w j p :
  list_find (fun p => id p = pid) (promisesFile w) = Some (j, p) ->
  deletePromise pid w = (Ok tt, after_delete pid p w).
Proof.
  intros H. unfold deletePromise, try_catch at 1, bind at 1.
  rewrite getPromises_run, H. cbv zeta.
  unfold bind at 1, savePromises, try_catch at 1, write.
  unfold bind at 1. unfold after_delete. cbv zeta.
  destruct (paddress p) as [a|].
  - rewrite getUser_run. cbn [usersFile with_promises].
    destruct (Obj.get (toLowerCase a) (usersFile w)) as [u|] eqn:Hu.
    + unfold bind at 1. unfold bind at 1.
      erewrite updateUser_run by (simpl; exact Hu). reflexivity.
    + reflexivity.
  - reflexivity.
Qed.

Lemma deletePromise_missing pid w :
  list_find (fun p => id p = pid) (promisesFile w) = None ->
  deletePromise pid w = (Err (not_found "Promise" (Some pid) ""), w).
Proof.
  intros H. unfold deletePromise, try_catch at 1, bind at 1.
  by rewrite getPromises_run, H.
Qed.

Lemma getDeleteRequests_run w :
  getDeleteRequests true w = (Ok (deleteRequestsFile w), w).
Proof. reflexivity. Qed.

Lemma updateDeleteRequestStatus_run requestId st admin w i req :
  list_find (fun r => rid r = requestId) (deleteRequestsFile w) = Some (i, req) ->
  let req' := processed req st admin (now w) in
  let w1 := with_deleteRequests (<[i := req']> (deleteRequestsFile w)) (tick w) in
  updateDeleteRequestStatus requestId st admin w =
    if String.eqb st "approved" then
      match list_find (fun p => id p = promiseId req) (promisesFile w) with
      | Some (_, p) => (Ok req', after_delete (promiseId req) p w1)
      | None => (Err (not_found "Promise" (Some (promiseId req)) ""), w1)
      end
    else (Ok req', w1).
Proof.
  intros H. cbv zeta.
  unfold updateDeleteRequestStatus, try_catch at 1, bind at 1.
  rewrite getDeleteRequests_run.
  rewrite H. cbv zeta.
  unfold bind at 1, Date_now at 1.
  unfold bind at 1, saveDeleteRequests, try_catch at 1, write.
  unfold bind at 1.
  destruct (String.eqb st "approved"); [|reflexivity].
  cbn [promiseId processed].
  destruct (list_find (fun p => id p = promiseId req) (promisesFile w))
    as [[j p]|] eqn:Hp.
  - erewrite deletePromise_run by (simpl; exact Hp). reflexivity.
  - rewrite deletePromise_missing by (simpl; exact Hp). reflexivity.
Qed.

Lemma updateDeleteRequestStatus_missing requestId st admin w :
  list_find (fun r => rid r = requestId) (deleteRequestsFile w) = None ->
  updateDeleteRequestStatus requestId st admin w =
    (Err (not_found "Delete request" (Some requestId) "."), w).
Proof.
  intros H. unfold updateDeleteRequestStatus, try_catch at 1, bind at 1.
  rewrite getDeleteRequests_run.
  by rewrite H.
Qed.

Lemma addDeleteRequest_existing pid requester w i existing :
  list_find (pending_for pid) (deleteRequestsFile w) = Some (i, existing) ->
  addDeleteRequest pid requester w = (Ok existing, w).
Proof.
  intros H. unfold addDeleteRequest, try_catch at 1, bind at 1.
  rewrite getDeleteRequests_run.
  match goal with
  | |- context [list_find ?P ?l] =>
      change (list_find P l) with (list_find (pending_for pid) l)
  end.
  by rewrite H.
Qed.

Lemma addDeleteRequest_new pid requester w :
  list_find (pending_for pid) (deleteRequestsFile w) = None ->
  addDeleteRequest pid requester w =
    (Ok (new_request pid requester w),
     with_deleteRequests (deleteRequestsFile w ++ [new_request pid requester w])
                         (tick (draw (tick w)))).
Proof.
  intros H. unfold addDeleteRequest, try_catch at 1, bind at 1.
  rewrite getDeleteRequests_run.
  match goal with
  | |- context [list_find ?P ?l] =>
      change (list_find P l) with (list_find (pending_for pid) l)
  end.
  by rewrite H.
Qed.

Lemma after_delete_promises pid p w :
  promisesFile (after_delete pid p w) = filter (fun q => id q <> pid) (promisesFile w).
Proof.
  unfold after_delete. cbv zeta. rewrite updateGlobalStats_run. cbv zeta.
  destruct (paddress p) as [a|]; [|reflexivity].
  by destruct (Obj.get (toLowerCase a) (usersFile w)).
Qed.

Lemma after_delete_requests pid p w :
  deleteRequestsFile (after_delete pid p w) = deleteRequestsFile w /\
  sessionsFile (after_delete pid p w) = sessionsFile w.
Proof.
  unfold after_delete. cbv zeta. rewrite updateGlobalStats_run. cbv zeta.
  destruct (paddress p) as [a|]; [|done].
  by destruct (Obj.get (toLowerCase a) (usersFile w)).
Qed.

Lemma after_delete_users pid p w :
  usersFile (after_delete pid p w) =
    match paddress p with
    | Some a =>
        match Obj.get (toLowerCase a) (usersFile w) with
        | Some u =>
            Obj.set (toLowerCase a)
              (set_lastActive (now w)
                 (spread_user u (total_only (Z.max 0 (totalPromises u - 1)))))
              (usersFile w)
        | None => usersFile w
        end
    | None => usersFile w
    end.
Proof.
  unfold after_delete. cbv zeta. rewrite updateGlobalStats_run. cbv zeta.
  destruct (paddress p) as [a|]; [|reflexivity].
  by destruct (Obj.get (toLowerCase a) (usersFile w)).
Qed.

Lemma after_delete_stats pid p w :
  exists t,
    statsFile (after_delete pid p w) =
      aggregate (usersFile (after_delete pid p w)) (promisesFile (after_delete pid p w))
                (sessionsFile (after_delete pid p w)) t.
Proof.
  unfold after_delete. cbv zeta. rewrite updateGlobalStats_run. cbv zeta.
  eexists. reflexivity.
Qed.

(** C2.  Resolving a stored delete request whose target promise is stored:
    "approved" succeeds, removes every record with the target id from the
    promises collection, writes max(0, totalPromises - 1) into the owner's
    record, and leaves the statistics recomputed from the resulting
    collections; "rejected" succeeds and leaves the promises and the users
    as they were. *)
Theorem resolve_effects w requestId admin i req :
  list_find (fun r => rid r = requestId) (deleteRequestsFile w) = Some (i, req) ->
  (forall j p,
     list_find (fun q => id q = promiseId req) (promisesFile w) = Some (j, p) ->
     let r := updateDeleteRequestStatus requestId "approved" admin w in
     let w' := snd r in
     (exists req', fst r = Ok req' /\ rstatus req' = "approved") /\
     promisesFile w' = filter (fun q => id q <> promiseId req) (promisesFile w) /\
     (p ∉ promisesFile w') /\
     (forall q, q ∈ promisesFile w' -> id q <> promiseId req) /\
     (forall a u,
        paddress p = Some a ->
        Obj.get (toLowerCase a) (usersFile w) = Some u ->
        exists u', Obj.get (toLowerCase a) (usersFile w') = Some u' /\
                   totalPromises u' = Z.max 0 (totalPromises u - 1)) /\
     (exists t, statsFile w' =
                  aggregate (usersFile w') (promisesFile w') (sessionsFile w') t)) /\
  (let r := updateDeleteRequestStatus requestId "rejected" admin w in
   (exists req', fst r = Ok req' /\ rstatus req' = "rejected") /\
   promisesFile (snd r) = promisesFile w /\
   usersFile (snd r) = usersFile w).
Proof.
  intros Hreq. split.
  - intros j p Hp r w'. subst r w'.
    rewrite (updateDeleteRequestStatus_run _ "approved" admin _ _ _ Hreq).
    cbv zeta. change (String.eqb "approved" "approved") with true. cbv iota.
    rewrite Hp. cbn [fst snd].
    assert (Hfile : promisesFile
              (after_delete (promiseId req) p
                 (with_deleteRequests
                    (<[i:=processed req "approved" admin (now w)]> (deleteRequestsFile w))
                    (tick w)))
            = filter (fun q => id q <> promiseId req) (promisesFile w))
      by (rewrite after_delete_promises; reflexivity).
    assert (Hgone : forall q,
              q ∈ filter (fun q => id q <> promiseId req) (promisesFile w) ->
              id q <> promiseId req)
      by (intros q Hq; by apply list_elem_of_filter in Hq as [? _]).
    split; [eexists; split; reflexivity|].
    split; [exact Hfile|]. rewrite Hfile.
    split.
    { intros Hin. apply (Hgone _ Hin).
      apply list_find_Some in Hp. tauto. }
    split; [exact Hgone|].
    split.
    + intros a u Ha Hu. rewrite after_delete_users, Ha. cbn [usersFile with_deleteRequests tick].
      rewrite Hu. eexists. split; [apply get_set_same|]. reflexivity.
    + rewrite <- Hfile. apply after_delete_stats.
  - intros r. subst r.
    rewrite (updateDeleteRequestStatus_run _ "rejected" admin _ _ _ Hreq).
    cbv zeta. change (String.eqb "rejected" "approved") with false. cbv iota.
    cbn [fst snd]. split; [eexists; split; reflexivity|]. split; reflexivity.
Qed.

Lemma resolve_effects_witness :
  promisesFile (snd (updateDeleteRequestStatus "delreq_1009_r1" "approved" "0xadmin"
                                               one_request)) = [] /\
  exists u', Obj.get "0xabc"
               (usersFile (snd (updateDeleteRequestStatus "delreq_1009_r1" "approved"
                                                          "0xadmin" one_request)))
             = Some u' /\ totalPromises u' = 0.
Proof.
  destruct (resolve_effects one_request "delreq_1009_r1" "0xadmin" 0%nat
              (mkDeleteRequest "delreq_1009_r1" "promise_1004_r0" "0xabc" "pending"
                               1010 None None))
    as [Happroved _].
  - vm_compute. reflexivity.
  - destruct (Happroved 0%nat
                (mkPromise "promise_1004_r0" 1005 1006 None (Some "0xABC") (Some "run 5k")
                           (Some 2000) (Some "active") None (Some "fitness") (Some "easy")))
      as (_ & Hfile & _ & _ & Huser & _).
    + vm_compute. reflexivity.
    + split; [rewrite Hfile; vm_compute; reflexivity|].
      destruct (Huser "0xABC" (mkUser "0xABC" 0 0 0 1 0 1 1001 1007) eq_refl)
        as (u' & Hget & Ht).
      * vm_compute. reflexivity.
      * exists u'. split; [exact Hget|]. rewrite Ht. reflexivity.
Defined.

(** ** Failures *)


Lemma then_ret {A} (m : M A) w :
  snd ((m ;; ret tt) w) = snd (m w) /\
  (forall e, fst ((m ;; ret tt) w) = Err e -> fst (m w) = Err e).
Proof. unfold bind, ret. destruct (m w) as [[x|e'] w']; simpl; split; congruence. Qed.



(** ** Invariants of the served store *)

Lemma total_only_ok t u n : user_ok u -> user_ok (set_lastActive t (spread_user u (total_only n))).
Proof. by intros [? ?]. Qed.

Lemma users_ok_get w k u : users_ok w -> Obj.get k (usersFile w) = Some u -> user_ok u.
Proof.
  intros Hok Hget. apply get_Some_values in Hget.
  unfold users_ok in Hok. rewrite Forall_forall in Hok.
  by apply Hok, list_elem_of_In.
Qed.

Lemma recordSession_frame sid ipa w :
  usersFile (snd (recordSession sid ipa w)) = usersFile w /\
  deleteRequestsFile (snd (recordSession sid ipa w)) = deleteRequestsFile w.
Proof.
  unfold recordSession, try_catch, bind, getSessions, read. cbn.
  destruct (Obj.get sid (sessionsFile w)); split; reflexivity.
Qed.

Lemma settle_frame p updates w :
  promisesFile (snd (settle p updates w)) = promisesFile w /\
  deleteRequestsFile (snd (settle p updates w)) = deleteRequestsFile w /\
  (users_ok w -> users_ok (snd (settle p updates w))).
Proof.
  unfold settle. destruct (d_status updates) as [s|]; [|done].
  destruct (_ && _)%bool; [|done].
  destruct (paddress p) as [a|]; [|done].
  destruct (Obj.get (toLowerCase a) (usersFile w)) as [u|] eqn:Hu.
  - rewrite (updateUserReputation_run _ s _ _ Hu). cbn [snd].
    split; [done|]. split; [done|]. intros Hok.
    apply Forall_values_set; [exact Hok|apply outcome_ok].
  - by rewrite (updateUserReputation_absent _ s _ Hu).
Qed.

Lemma createPromise_frame d w :
  deleteRequestsFile (snd (createPromise d w)) = deleteRequestsFile w /\
  (users_ok w -> users_ok (snd (createPromise d w))).
Proof.
  destruct (d_address d) as [a|] eqn:Hd.
  - rewrite (createPromise_run _ _ _ Hd). cbv zeta. rewrite updateGlobalStats_run.
    cbv zeta. cbn [snd].
    destruct (Obj.get (toLowerCase a) (usersFile w)) as [u|] eqn:Hu.
    + split; [done|]. intros Hok. unfold users_ok. cbn [usersFile with_stats with_users tick].
      apply Forall_values_set; [exact Hok|].
      apply total_only_ok. by eapply users_ok_get.
    + split; [done|]. intros Hok. unfold users_ok.
      cbn -[Obj.set]. apply Forall_values_set.
      * apply Forall_values_set; [exact Hok|]. split; simpl; [lia|reflexivity].
      * split; simpl; [lia|reflexivity].
  - by rewrite (createPromise_undefined _ _ Hd).
Qed.

Lemma updatePromise_frame pid updates w :
  deleteRequestsFile (snd (updatePromise pid updates w)) = deleteRequestsFile w /\
  (users_ok w -> users_ok (snd (updatePromise pid updates w))).
Proof.
  destruct (list_find (fun p => id p = pid) (promisesFile w)) as [[i p]|] eqn:Hp.
  - rewrite (updatePromise_run _ _ _ _ _ Hp). cbv zeta. rewrite updateGlobalStats_run.
    cbv zeta. cbn [snd].
    match goal with
    | |- context [settle p updates ?w1] =>
        destruct (settle_frame p updates w1) as (_ & Hr & Hok)
    end.
    split; [exact Hr|]. intros H. apply Hok. exact H.
  - by rewrite (updatePromise_missing _ _ _ Hp).
Qed.


Lemma addDeleteRequest_users pid requester w :
  usersFile (snd (addDeleteRequest pid requester w)) = usersFile w.
Proof.
  destruct (list_find (pending_for pid) (deleteRequestsFile w)) as [[i r]|] eqn:Hr.
  - by rewrite (addDeleteRequest_existing _ _ _ _ _ Hr).
  - by rewrite (addDeleteRequest_new _ _ _ Hr).
Qed.



Lemma serve_invariant (I : World -> Prop) rs w :
  (forall r w, I w -> I (snd (handle r w))) -> I w -> I (serve rs w).
Proof.
  intros Hstep. revert w. induction rs as [|r rs IH]; intros w Hw; simpl; [done|].
  apply IH, Hstep, Hw.
Qed.


Section Pending.
Context {A : Type} (P : A -> Prop) `{!forall x, Decision (P x)}.

Lemma filter_insert_le (l : list A) i x :
  ~ P x -> (length (filter P (<[i:=x]> l)) <= length (filter P l))%nat.
Proof.
  intros Hx. revert i. induction l as [|y l IH]; intros i; [done|].
  destruct i as [|i]; simpl.
  - rewrite (filter_cons_False _ x) by done. rewrite filter_cons.
    destruct (decide (P y)); simpl; lia.
  - rewrite !filter_cons. specialize (IH i).
    destruct (decide (P y)); simpl; lia.
Qed.

Lemma list_find_None_filter (l : list A) : list_find P l = None -> filter P l = [].
Proof.
  rewrite list_find_None. induction 1 as [|y l Hy _ IH]; [done|].
  by rewrite filter_cons_False.
Qed.

Lemma list_find_Some_filter (l : list A) i x :
  list_find P l = Some (i, x) -> exists rest, filter P l = x :: rest.
Proof.
  revert i. induction l as [|y l IH]; intros i; [done|].
  rewrite filter_cons. simpl. destruct (decide (P y)) as [Hy|Hy].
  - intros [= <- <-]. eauto.
  - destruct (list_find P l) as [[j z]|]; [|done].
    simpl. intros [= <- <-]. eauto.
Qed.
End Pending.

Lemma processed_not_pending pid req st admin t :
  st <> "pending" -> ~ pending_for pid (processed req st admin t).
Proof. intros Hst [_ H]. by apply Hst. Qed.

Lemma updateDeleteRequestStatus_pending requestId st admin w :
  st <> "pending" ->
  one_pending w -> one_pending (snd (updateDeleteRequestStatus requestId st admin w)).
Proof.
  intros Hst Hinv.
  destruct (list_find (fun r => rid r = requestId) (deleteRequestsFile w))
    as [[i req]|] eqn:Hreq.
  - rewrite (updateDeleteRequestStatus_run _ st admin _ _ _ Hreq). cbv zeta.
    assert (Hle : forall pid,
              (length (filter (pending_for pid)
                        (<[i:=processed req st admin (now w)]> (deleteRequestsFile w)))
               <= 1)%nat).
    { intros pid. etrans; [|apply (Hinv pid)].
      apply filter_insert_le. by apply processed_not_pending. }
    destruct (String.eqb st "approved"); [|exact Hle].
    destruct (list_find _ (promisesFile w)) as [[j p]|]; [|exact Hle].
    intros pid. cbn [snd]. rewrite (proj1 (after_delete_requests _ _ _)). apply Hle.
  - by rewrite (updateDeleteRequestStatus_missing _ _ _ _ Hreq).
Qed.

Lemma addDeleteRequest_pending pid requester w :
  one_pending w -> one_pending (snd (addDeleteRequest pid requester w)).
Proof.
  intros Hinv.
  destruct (list_find (pending_for pid) (deleteRequestsFile w)) as [[i r]|] eqn:Hr.
  - by rewrite (addDeleteRequest_existing _ _ _ _ _ Hr).
  - rewrite (addDeleteRequest_new _ _ _ Hr). intros pid'. cbn [snd].
    cbn [deleteRequestsFile with_deleteRequests]. rewrite list.filter_app, length_app.
    destruct (decide (pid' = pid)) as [->|Hne].
    + rewrite (list_find_None_filter _ _ Hr). simpl.
      rewrite filter_cons. destruct (decide _); simpl; lia.
    + rewrite (filter_cons_False _ (new_request pid requester w)).
      * specialize (Hinv pid'). simpl. lia.
      * intros [H _]. simpl in H. congruence.
Qed.

Lemma handle_one_pending r w : one_pending w -> one_pending (snd (handle r w)).
Proof.
  intros Hinv. destruct r; cbn [handle]; rewrite ?(proj1 (then_ret _ _)).
  - unfold one_pending. by rewrite (proj2 (recordSession_frame _ _ _)).
  - unfold one_pending. by rewrite (proj1 (createPromise_frame _ _)).
  - unfold one_pending. by rewrite (proj1 (updatePromise_frame _ _ _)).
  - by apply addDeleteRequest_pending.
  - by apply updateDeleteRequestStatus_pending.
  - by apply updateDeleteRequestStatus_pending.
  - unfold one_pending. by rewrite (proj1 (updatePromise_frame _ _ _)).
Qed.

Lemma served_one_pending clock rand rs : one_pending (serve rs (boot clock rand)).
Proof.
  apply (serve_invariant one_pending).
  - apply handle_one_pending.
  - intros pid. simpl. lia.
Qed.

(** C3.  In the store reached by any sequence of requests served from
    start-up, no promise id has more than one pending delete request;
    [addDeleteRequest] for an id that has a pending request returns that
    request and changes nothing; and two calls in a row for one id leave
    exactly one pending request for it. *)
Theorem pending_unique clock rand rs :
  let w := serve rs (boot clock rand) in
  (forall pid, (length (filter (pending_for pid) (deleteRequestsFile w)) <= 1)%nat) /\
  (forall pid requester existing,
     existing ∈ deleteRequestsFile w ->
     promiseId existing = pid ->
     rstatus existing = "pending" ->
     addDeleteRequest pid requester w = (Ok existing, w)) /\
  (forall pid a b,
     length (filter (pending_for pid)
               (deleteRequestsFile
                  (snd (addDeleteRequest pid b (snd (addDeleteRequest pid a w))))))
     = 1%nat).
Proof.
  intros w. pose proof (served_one_pending clock rand rs) as Hinv. fold w in Hinv.
  split; [exact Hinv|]. split.
  - intros pid requester existing Hin Hpid Hst.
    destruct (list_find_elem_of (pending_for pid) _ existing Hin) as [[i x] Hx];
      [by split|].
    rewrite (addDeleteRequest_existing _ _ _ _ _ Hx). f_equal. f_equal.
    destruct (list_find_Some_filter _ _ _ _ Hx) as [rest Hrest].
    assert (Hex : existing ∈ filter (pending_for pid) (deleteRequestsFile w))
      by (apply list_elem_of_filter; split; [by split|done]).
    specialize (Hinv pid). rewrite Hrest in Hinv, Hex.
    destruct rest; [|simpl in Hinv; lia].
    by apply list_elem_of_singleton in Hex.
  - intros pid a b.
    assert (Hone : forall v i x,
              one_pending v ->
              list_find (pending_for pid) (deleteRequestsFile v) = Some (i, x) ->
              length (filter (pending_for pid)
                        (deleteRequestsFile (snd (addDeleteRequest pid b v)))) = 1%nat).
    { intros v i x Hv Hx. rewrite (addDeleteRequest_existing _ _ _ _ _ Hx). cbn [snd].
      destruct (list_find_Some_filter _ _ _ _ Hx) as [rest Hrest].
      specialize (Hv pid). rewrite Hrest in *. simpl in *. lia. }
    destruct (list_find (pending_for pid) (deleteRequestsFile w)) as [[i x]|] eqn:Hx.
    + rewrite (addDeleteRequest_existing _ a _ _ _ Hx). cbn [snd]. by eapply Hone.
    + pose proof (addDeleteRequest_pending pid a w Hinv) as Hinv'.
      destruct (list_find (pending_for pid)
                  (deleteRequestsFile (snd (addDeleteRequest pid a w))))
        as [[j y]|] eqn:Hy.
      * by eapply Hone.
      * exfalso. revert Hy. rewrite (addDeleteRequest_new _ _ _ Hx). cbn [snd].
        cbn [deleteRequestsFile with_deleteRequests]. rewrite list_find_None.
        rewrite Forall_app. intros [_ Hnew]. inversion Hnew as [|? ? Hn _]; subst.
        apply Hn. by split.
Qed.

Lemma pending_unique_witness :
  addDeleteRequest "promise_1004_r0" "0xdef"
    (serve [PostPromises (data "0xABC" "run 5k" (Some "active"));
            PostDeleteRequests "promise_1004_r0" "0xabc"] (boot clock0 rand0))
  = (Ok (mkDeleteRequest "delreq_1009_r1" "promise_1004_r0" "0xabc" "pending" 1010
                         None None),
     serve [PostPromises (data "0xABC" "run 5k" (Some "active"));
            PostDeleteRequests "promise_1004_r0" "0xabc"] (boot clock0 rand0)).
Proof.
  destruct (pending_unique clock0 rand0
              [PostPromises (data "0xABC" "run 5k" (Some "active"));
               PostDeleteRequests "promise_1004_r0" "0xabc"]) as (_ & Hsame & _).
  apply Hsame.
  - vm_compute. apply list_elem_of_here.
  - reflexivity.
  - reflexivity.
Defined.

(** ** The aggregation engine *)

Lemma top_step_scan (us : list User) :
  (exists u, fold_left top_step us None = Some u /\ first_max us u /\ 0 < reputation u) \/
  (fold_left top_step us None = None /\ forall x, x ∈ us -> reputation x <= 0).
Proof.
  induction us as [|x us IH] using rev_ind.
  - right. split; [done|]. intros x Hx. by apply elem_of_nil in Hx.
  - rewrite fold_left_app. cbn [fold_left].
    destruct IH as [(u & -> & (before & after & -> & Hb & Ha) & Hpos) | [-> Hall]].
    + unfold top_step. cbn [fmap option_fmap option_map or_zero].
      destruct (Z.eqb_spec (reputation u) 0) as [?|_]; [lia|].
      destruct (Z.ltb_spec (reputation u) (reputation x)) as [Hlt|Hge].
      * left. exists x. split; [done|]. split; [|lia].
        exists (before ++ u :: after)%list, []. split; [done|]. split.
        -- intros y Hy. apply elem_of_app in Hy as [Hy|Hy].
           ++ specialize (Hb y Hy). lia.
           ++ apply elem_of_cons in Hy as [->|Hy]; [lia|]. specialize (Ha y Hy). lia.
        -- intros y Hy. by apply elem_of_nil in Hy.
      * left. exists u. split; [done|]. split; [|lia].
        exists before, (after ++ [x])%list. split; [by rewrite <- app_assoc|].
        split; [exact Hb|].
        intros y Hy. apply elem_of_app in Hy as [Hy|Hy]; [by apply Ha|].
        apply list_elem_of_singleton in Hy as ->. lia.
    + unfold top_step. cbn [fmap option_fmap option_map or_zero].
      destruct (Z.ltb_spec 0 (reputation x)) as [Hlt|Hge].
      * left. exists x. split; [done|]. split; [|lia].
        exists us, []. split; [done|]. split.
        -- intros y Hy. specialize (Hall y Hy). lia.
        -- intros y Hy. by apply elem_of_nil in Hy.
      * right. split; [done|].
        intros y Hy. apply elem_of_app in Hy as [Hy|Hy]; [by apply Hall|].
        apply list_elem_of_singleton in Hy as ->. lia.
Qed.

(** C9, as stated, fails: a user whose reputation is 0 never beats the
    initial threshold [top?.reputation || 0], so right after the first
    promise is created there is a user and no top performer. *)
Lemma top_performer_counterexample :
  Obj.keys (usersFile (snd (updateGlobalStats one_promise))) = ["0xabc"] /\
  topPerformer (statsFile (snd (updateGlobalStats one_promise))) = None.
Proof. vm_compute. split; reflexivity. Qed.

(** C9, amended.  After [updateGlobalStats], when some stored user has a
    positive reputation, topPerformer is the address of the first user in
    scan order that holds the maximum reputation (none when that address
    is the empty string); when no stored user has a positive reputation,
    in particular when there is no user, topPerformer is none. *)
Theorem top_performer w :
  let w' := snd (updateGlobalStats w) in
  let us := Obj.values (usersFile w') in
  (exists u,
     first_max us u /\ 0 < reputation u /\
     topPerformer (statsFile w') =
       if decide (address u = "") then None else Some (address u)) \/
  ((forall x, x ∈ us -> reputation x <= 0) /\ topPerformer (statsFile w') = None).
Proof.
  rewrite updateGlobalStats_run. cbv zeta.
  cbn [snd statsFile usersFile with_stats tick topPerformer aggregate].
  destruct (top_step_scan (Obj.values (usersFile w)))
    as [(u & -> & Hmax & Hpos) | [-> Hall]].
  - left. exists u. split; [exact Hmax|]. split; [exact Hpos|].
    unfold address_or_null, truthy.
    destruct (String.eqb_spec (address u) ""), (decide (address u = "")); done.
  - right. split; [exact Hall|done].
Qed.

(** ** The scenario of the specification, run on the model *)

Example scenario_complete_then_fail :
  let completed := mkPromiseData None None None None None None None (Some "completed")
                                 None None None in
  let failed := mkPromiseData None None None None None None None (Some "failed")
                              None None None in
  let w := serve [PostPromises (data "0xabc" "run 5k" (Some "active"));
                  PutPromise "promise_1004_r0" completed;
                  PostPromises (data "0xabc" "read a book" (Some "active"));
                  PutPromise "promise_1012_r1" failed] (boot clock0 rand0) in
  (fun u => (reputation u, completedPromises u, failedPromises u, totalPromises u,
             streak u, level u)) <$> Obj.get "0xabc" (usersFile w)
  = Some (5, 1, 1, 2, 0, 1).
Proof. vm_compute. reflexivity. Qed.

(** * Further properties of the service *)

(** ** Every write to the users dictionary *)

Lemma users_after_createPromise d w :
  rtc user_write (usersFile w) (usersFile (snd (createPromise d w))).
Proof.
  destruct (d_address d) as [a|] eqn:Hd.
  - rewrite (createPromise_run _ _ _ Hd). cbv zeta. rewrite updateGlobalStats_run.
    cbv zeta. cbn [snd usersFile with_stats with_users].
    destruct (Obj.get (toLowerCase a) (usersFile w)) as [u|] eqn:Hu.
    + apply rtc_once. cbn [default]. apply write_total; [exact Hu|by left].
    + eapply rtc_l; [apply (write_blank _ a (now w) (now (tick w)) Hu)|].
      apply rtc_once.
      change (usersFile (snd (createUser (Some a) no_user_data w)))
        with (Obj.set (toLowerCase a) (blank_user a w) (usersFile w)).
      cbn [default]. apply write_total; [apply get_set_same|by left].
  - rewrite (createPromise_undefined _ _ Hd). apply rtc_refl.
Qed.

Lemma users_after_settle p updates w :
  rtc user_write (usersFile w) (usersFile (snd (settle p updates w))).
Proof.
  unfold settle. destruct (d_status updates) as [s|]; [|apply rtc_refl].
  destruct (_ && _)%bool; [|apply rtc_refl].
  destruct (paddress p) as [a|]; [|apply rtc_refl].
  destruct (Obj.get (toLowerCase a) (usersFile w)) as [u|] eqn:Hu.
  - rewrite (updateUserReputation_run _ s _ _ Hu). apply rtc_once.
    by apply write_outcome.
  - rewrite (updateUserReputation_absent _ s _ Hu). apply rtc_refl.
Qed.

Lemma users_after_updatePromise pid updates w :
  rtc user_write (usersFile w) (usersFile (snd (updatePromise pid updates w))).
Proof.
  destruct (list_find (fun p => id p = pid) (promisesFile w)) as [[i p]|] eqn:Hp.
  - rewrite (updatePromise_run _ _ _ _ _ Hp). cbv zeta. rewrite updateGlobalStats_run.
    cbv zeta. cbn [snd usersFile with_stats tick].
    match goal with
    | |- context [settle p updates ?w1] => apply (users_after_settle p updates w1)
    end.
  - rewrite (updatePromise_missing _ _ _ Hp). apply rtc_refl.
Qed.

Lemma users_after_delete pid p w :
  rtc user_write (usersFile w) (usersFile (after_delete pid p w)).
Proof.
  rewrite after_delete_users. destruct (paddress p) as [a|]; [|apply rtc_refl].
  destruct (Obj.get (toLowerCase a) (usersFile w)) as [u|] eqn:Hu; [|apply rtc_refl].
  apply rtc_once. apply write_total; [exact Hu|by right].
Qed.

Lemma users_after_resolve requestId st admin w :
  rtc user_write (usersFile w)
      (usersFile (snd (updateDeleteRequestStatus requestId st admin w))).
Proof.
  destruct (list_find (fun r => rid r = requestId) (deleteRequestsFile w))
    as [[i req]|] eqn:Hreq.
  - rewrite (updateDeleteRequestStatus_run _ st admin _ _ _ Hreq). cbv zeta.
    destruct (String.eqb st "approved"); [|apply rtc_refl].
    destruct (list_find _ (promisesFile w)) as [[j p]|]; [|apply rtc_refl].
    cbn [snd].
    match goal with
    | |- context [after_delete ?q p ?w1] => apply (users_after_delete q p w1)
    end.
  - rewrite (updateDeleteRequestStatus_missing _ _ _ _ Hreq). apply rtc_refl.
Qed.

Lemma users_after_handle r w :
  rtc user_write (usersFile w) (usersFile (snd (handle r w))).
Proof.
  destruct r; cbn [handle]; rewrite ?(proj1 (then_ret _ _)).
  - rewrite (proj1 (recordSession_frame _ _ _)). apply rtc_refl.
  - apply users_after_createPromise.
  - apply users_after_updatePromise.
  - rewrite addDeleteRequest_users. apply rtc_refl.
  - apply users_after_resolve.
  - apply users_after_resolve.
  - apply users_after_updatePromise.
Qed.

Lemma users_after_serve rs w :
  rtc user_write (usersFile w) (usersFile (serve rs w)).
Proof.
  revert w. induction rs as [|r rs IH]; intros w; simpl; [apply rtc_refl|].
  etrans; [apply (users_after_handle r w)|apply IH].
Qed.

Lemma outcome_fields t u s :
  address (outcome t u s) = address u /\
  joinedAt (outcome t u s) = joinedAt u /\
  totalPromises (outcome t u s) = totalPromises u /\
  (counters_ok u -> counters_ok (outcome t u s)).
Proof.
  unfold outcome, counters_ok.
  destruct (String.eqb s "completed"); [|destruct (String.eqb s "failed")];
    simpl; repeat split; try done; lia.
Qed.



Section ObjEntries.
  Context {V : Type}.
  Implicit Types (o : Obj.t V) (k : string) (v : V).


Lemma keys_add k v o : Obj.keys (Obj.add k v o) ≡ₚ k :: Obj.keys o.
Proof.
  induction o as [|[k' v'] o IH]; simpl; [done|].
  destruct (Obj.key_before k k'); simpl; [done|].
  rewrite IH. apply perm_swap.
Qed.




Lemma keys_set_grow k k' v o : k' ∈ Obj.keys o -> k' ∈ Obj.keys (Obj.set k v o).
Proof.
  intros H. unfold Obj.set. destruct (Obj.get k o).
  - by rewrite keys_replace.
  - rewrite keys_add. by apply list_elem_of_further.
Qed.
End ObjEntries.



Lemma user_write_identity us us' k u :
  user_write us us' -> Obj.get k us = Some u ->
  exists u', Obj.get k us' = Some u' /\
             address u' = address u /\ joinedAt u' = joinedAt u.
Proof.
  intros Hstep Hk.
  destruct Hstep as [a t1 t2 Hnone|a u0 n t Hu Hn|a u0 s t Hu];
    destruct (decide (k = toLowerCase a)) as [->|Hne];
    rewrite ?get_set_same, ?(get_set_other _ _ _ _ Hne); eauto; simplify_eq.
  - eauto.
  - eexists. split; [done|]. split; apply outcome_fields.
Qed.

(** X3.  No request ever removes a user or changes who a record belongs
    to: a record stored under a key is still stored under that key after
    any sequence of requests, with the same address and joinedAt. *)
Theorem users_are_never_removed rs w k u :
  Obj.get k (usersFile w) = Some u ->
  exists u', Obj.get k (usersFile (serve rs w)) = Some u' /\
             address u' = address u /\ joinedAt u' = joinedAt u.
Proof.
  intros Hk. pose proof (users_after_serve rs w) as Hrtc.
  revert u Hk. induction Hrtc as [us|us us1 us2 Hstep _ IH]; intros u Hk; [eauto|].
  destruct (user_write_identity _ _ _ _ Hstep Hk) as (u1 & Hk1 & Ha & Hj).
  destruct (IH _ Hk1) as (u' & Hk' & Ha' & Hj').
  exists u'. split; [done|]. split; congruence.
Qed.

Lemma users_are_never_removed_witness :
  exists u',
    Obj.get "0xabc"
      (usersFile (serve [PutPromise "promise_1004_r0"
                           (mkPromiseData None None None None None None None
                                          (Some "failed") None None None);
                         PostDeleteRequests "promise_1004_r0" "0xabc";
                         AdminApproveDelete "delreq_1012_r1" "0xadmin"]
                        one_promise)) = Some u' /\
    address u' = "0xABC" /\ joinedAt u' = 1001.
Proof.
  apply (users_are_never_removed _ one_promise "0xabc"
           (mkUser "0xABC" 0 0 0 1 0 1 1001 1007)).
  vm_compute. reflexivity.
Defined.

(** ** Sessions *)

Lemma recordSession_run sid ipa w :
  recordSession sid ipa w =
    match Obj.get sid (sessionsFile w) with
    | None =>
        (Ok tt,
         snd (updateGlobalStats
                (with_sessions
                   (Obj.set sid (mkSession ipa (now w) (now (tick w))) (sessionsFile w))
                   (tick (tick w)))))
    | Some s =>
        (Ok tt,
         with_sessions
           (Obj.set sid (mkSession (ip s) (firstVisit s) (now w)) (sessionsFile w))
           (tick w))
    end.
Proof.
  unfold recordSession, try_catch at 1, bind at 1.
  change (getSessions w) with (Ok (sessionsFile w), w). cbv iota beta.
  destruct (Obj.get sid (sessionsFile w)); reflexivity.
Qed.


(** ** The statistics are never stale *)

Lemma aggregate_sessions us ps (ss ss' : Obj.t Session) t :
  length (Obj.keys ss) = length (Obj.keys ss') ->
  aggregate us ps ss t = aggregate us ps ss' t.
Proof. intros H. unfold aggregate. by rewrite H. Qed.

Lemma fresh_frame w w' :
  usersFile w' = usersFile w -> promisesFile w' = promisesFile w ->
  length (Obj.keys (sessionsFile w')) = length (Obj.keys (sessionsFile w)) ->
  statsFile w' = statsFile w ->
  (exists t, statsFile w = aggregate (usersFile w) (promisesFile w) (sessionsFile w) t) ->
  exists t, statsFile w' = aggregate (usersFile w') (promisesFile w') (sessionsFile w') t.
Proof.
  intros Hu Hp Hs Hst [t Ht]. exists t. rewrite Hu, Hp, Hst, Ht.
  by apply aggregate_sessions.
Qed.

Lemma fresh_after_stats w :
  exists t, statsFile (snd (updateGlobalStats w)) =
            aggregate (usersFile (snd (updateGlobalStats w)))
                      (promisesFile (snd (updateGlobalStats w)))
                      (sessionsFile (snd (updateGlobalStats w))) t.
Proof. rewrite updateGlobalStats_run. eexists. reflexivity. Qed.

Lemma fresh_after_handle r w :
  (exists t, statsFile w = aggregate (usersFile w) (promisesFile w) (sessionsFile w) t) ->
  exists t, statsFile (snd (handle r w)) =
            aggregate (usersFile (snd (handle r w))) (promisesFile (snd (handle r w)))
                      (sessionsFile (snd (handle r w))) t.
Proof.
  intros Hfresh.
  assert (Hcreate : forall d,
            exists t, statsFile (snd (createPromise d w)) =
              aggregate (usersFile (snd (createPromise d w)))
                        (promisesFile (snd (createPromise d w)))
                        (sessionsFile (snd (createPromise d w))) t).
  { intros d. destruct (d_address d) as [a|] eqn:Hd.
    - rewrite (createPromise_run _ _ _ Hd). cbv zeta. cbn [snd]. apply fresh_after_stats.
    - rewrite (createPromise_undefined _ _ Hd). by apply (fresh_frame w). }
  assert (Hupdate : forall pid u,
            exists t, statsFile (snd (updatePromise pid u w)) =
              aggregate (usersFile (snd (updatePromise pid u w)))
                        (promisesFile (snd (updatePromise pid u w)))
                        (sessionsFile (snd (updatePromise pid u w))) t).
  { intros pid u.
    destruct (list_find (fun p => id p = pid) (promisesFile w)) as [[i p]|] eqn:Hp.
    - rewrite (updatePromise_run _ _ _ _ _ Hp). cbv zeta. cbn [snd].
      apply fresh_after_stats.
    - by rewrite (updatePromise_missing _ _ _ Hp). }
  assert (Hresolve : forall requestId st admin,
            exists t, statsFile (snd (updateDeleteRequestStatus requestId st admin w)) =
              aggregate (usersFile (snd (updateDeleteRequestStatus requestId st admin w)))
                        (promisesFile (snd (updateDeleteRequestStatus requestId st admin w)))
                        (sessionsFile (snd (updateDeleteRequestStatus requestId st admin w)))
                        t).
  { intros requestId st admin.
    destruct (list_find (fun r => rid r = requestId) (deleteRequestsFile w))
      as [[i req]|] eqn:Hreq.
    - rewrite (updateDeleteRequestStatus_run _ st admin _ _ _ Hreq). cbv zeta.
      destruct (String.eqb st "approved"); [|by apply (fresh_frame w)].
      destruct (list_find _ (promisesFile w)) as [[j p]|]; [|by apply (fresh_frame w)].
      cbn [snd]. apply after_delete_stats.
    - by rewrite (updateDeleteRequestStatus_missing _ _ _ _ Hreq). }
  destruct r; cbn [handle]; rewrite ?(proj1 (then_ret _ _)); auto.
  - rewrite recordSession_run.
    destruct (Obj.get sessionId (sessionsFile w)) as [s|] eqn:Hs.
    + apply (fresh_frame w); try done. cbn [snd sessionsFile with_sessions].
      by rewrite (set_present _ _ _ _ Hs), keys_replace.
    + cbn [snd]. apply fresh_after_stats.
  - destruct (list_find (pending_for promiseId0) (deleteRequestsFile w))
      as [[i x]|] eqn:Hx.
    + by rewrite (addDeleteRequest_existing _ _ _ _ _ Hx).
    + rewrite (addDeleteRequest_new _ _ _ Hx). by apply (fresh_frame w).
Qed.

(** X5.  After any sequence of requests served from start-up the stored
    statistics are the ones [updateGlobalStats] would compute from the
    stored users, promises and sessions; in particular totalPromises is
    the number of stored promises and totalUsers is the number of stored
    sessions (not of users). *)
Theorem stats_never_stale clock rand rs :
  let w := serve rs (boot clock rand) in
  (exists t, statsFile w = aggregate (usersFile w) (promisesFile w) (sessionsFile w) t) /\
  gTotalPromises (statsFile w) = Z.of_nat (length (promisesFile w)) /\
  totalUsers (statsFile w) = Z.of_nat (length (Obj.keys (sessionsFile w))).
Proof.
  cbv zeta.
  assert (H : exists t,
             statsFile (serve rs (boot clock rand)) =
               aggregate (usersFile (serve rs (boot clock rand)))
                         (promisesFile (serve rs (boot clock rand)))
                         (sessionsFile (serve rs (boot clock rand))) t).
  { apply (serve_invariant
             (fun w => exists t, statsFile w =
                aggregate (usersFile w) (promisesFile w) (sessionsFile w) t)).
    - intros r w. apply fresh_after_handle.
    - eexists. reflexivity. }
  split; [exact H|]. destruct H as [t ->]. split; reflexivity.
Qed.

(** ** What the requests do to the promises and the sessions *)

Lemma promises_after_createPromise d w :
  promisesFile (snd (createPromise d w)) = promisesFile w \/
  exists p, promisesFile (snd (createPromise d w)) = (promisesFile w ++ [p])%list /\
            is_Some (paddress p).
Proof.
  destruct (d_address d) as [a|] eqn:Hd.
  - right. rewrite (createPromise_run _ _ _ Hd). cbv zeta. rewrite updateGlobalStats_run.
    cbv zeta. cbn [snd]. eexists. split; [reflexivity|]. simpl. rewrite Hd. eauto.
  - left. by rewrite (createPromise_undefined _ _ Hd).
Qed.

Lemma promises_after_updatePromise pid updates w :
  promisesFile (snd (updatePromise pid updates w)) = promisesFile w \/
  exists i p, promisesFile w !! i = Some p /\
              promisesFile (snd (updatePromise pid updates w)) =
                <[i := set_updatedAt (now w) (spread_promise p updates)]> (promisesFile w).
Proof.
  destruct (list_find (fun p => id p = pid) (promisesFile w)) as [[i p]|] eqn:Hp.
  - right. exists i, p. split; [apply list_find_Some in Hp; tauto|].
    rewrite (updatePromise_run _ _ _ _ _ Hp). cbv zeta. rewrite updateGlobalStats_run.
    cbv zeta. cbn [snd promisesFile with_stats tick].
    match goal with
    | |- context [settle p updates ?w1] =>
        rewrite (proj1 (settle_frame p updates w1))
    end.
    reflexivity.
  - left. by rewrite (updatePromise_missing _ _ _ Hp).
Qed.

Lemma promises_after_resolve requestId st admin w :
  promisesFile (snd (updateDeleteRequestStatus requestId st admin w)) = promisesFile w \/
  st = "approved" /\
  exists pid, promisesFile (snd (updateDeleteRequestStatus requestId st admin w)) =
                filter (fun q => id q <> pid) (promisesFile w).
Proof.
  destruct (list_find (fun r => rid r = requestId) (deleteRequestsFile w))
    as [[i req]|] eqn:Hreq.
  - rewrite (updateDeleteRequestStatus_run _ st admin _ _ _ Hreq). cbv zeta.
    destruct (String.eqb_spec st "approved") as [->|_]; [|by left].
    destruct (list_find _ (promisesFile w)) as [[j p]|]; [|by left].
    right. split; [done|]. exists (promiseId req). cbn [snd].
    by rewrite after_delete_promises.
  - left. by rewrite (updateDeleteRequestStatus_missing _ _ _ _ Hreq).
Qed.

Lemma promises_after_addDeleteRequest pid requester w :
  promisesFile (snd (addDeleteRequest pid requester w)) = promisesFile w /\
  sessionsFile (snd (addDeleteRequest pid requester w)) = sessionsFile w /\
  statsFile (snd (addDeleteRequest pid requester w)) = statsFile w.
Proof.
  destruct (list_find (pending_for pid) (deleteRequestsFile w)) as [[i r]|] eqn:Hr.
  - by rewrite (addDeleteRequest_existing _ _ _ _ _ Hr).
  - by rewrite (addDeleteRequest_new _ _ _ Hr).
Qed.

Lemma recordSession_promises sid ipa w :
  promisesFile (snd (recordSession sid ipa w)) = promisesFile w.
Proof.
  rewrite recordSession_run. by destruct (Obj.get sid (sessionsFile w)).
Qed.

(** X6.  Promises leave the store only through an approved delete request:
    a sequence of requests without an approval never makes the promises
    collection shorter. *)
Theorem promises_removed_only_by_approval rs w :
  Forall (fun r => forall requestId admin, r <> AdminApproveDelete requestId admin) rs ->
  (length (promisesFile w) <= length (promisesFile (serve rs w)))%nat.
Proof.
  intros Hrs. revert w. induction Hrs as [|r rs Hr _ IH]; intros w; simpl; [done|].
  etrans; [|apply IH].
  destruct r as [sid ipa|d|pid u|pid a|requestId admin|requestId admin|pid n];
    cbn [handle]; rewrite ?(proj1 (then_ret _ _)).
  - by rewrite recordSession_promises.
  - destruct (promises_after_createPromise d w) as [->|(p & -> & _)]; [done|].
    rewrite length_app. simpl. lia.
  - destruct (promises_after_updatePromise pid u w) as [->|(i & p & _ & ->)]; [done|].
    by rewrite length_insert.
  - by rewrite (proj1 (promises_after_addDeleteRequest pid a w)).
  - by destruct (Hr requestId admin).
  - destruct (promises_after_resolve requestId "rejected" admin w) as [->|[? _]]; done.
  - destruct (promises_after_updatePromise pid
                (mkPromiseData None None None (Some n) None None None None None None None)
                w) as [->|(i & p & _ & ->)]; [done|].
    by rewrite length_insert.
Qed.

Lemma promises_removed_only_by_approval_witness :
  (1 <= length (promisesFile
                  (serve [PostDeleteRequests "promise_1004_r0" "0xabc";
                          AdminRejectDelete "delreq_1009_r1" "0xadmin";
                          PutPromise "promise_1004_r0" no_data]
                         one_promise)))%nat.
Proof.
  apply (promises_removed_only_by_approval
           [PostDeleteRequests "promise_1004_r0" "0xabc";
            AdminRejectDelete "delreq_1009_r1" "0xadmin";
            PutPromise "promise_1004_r0" no_data] one_promise).
  repeat constructor; discriminate.
Defined.


(** ** Exporting a user's data *)









(** ** The leaderboard *)

Lemma insert_desc_perm u l : insert_desc u l ≡ₚ u :: l.
Proof.
  induction l as [|v l IH]; simpl; [done|].
  destruct (reputation v <=? reputation u); [done|].
  rewrite IH. apply perm_swap.
Qed.

Lemma sort_by_reputation_perm l : sort_by_reputation l ≡ₚ l.
Proof.
  induction l as [|u l IH]; simpl; [done|].
  rewrite insert_desc_perm. by rewrite IH.
Qed.







Lemma first_max_unique us u u' : first_max us u -> first_max us u' -> u = u'.
Proof.
  intros (b1 & a1 & -> & Hb1 & Ha1) (b2 & a2 & Heq & Hb2 & Ha2).
  apply List.app_eq_app in Heq as [l [[Hb Hl]|[Hb Hl]]].
  - destruct l as [|x l]; simpl in Hl; [by injection Hl|].
    injection Hl as Hx Hl. subst x a2 b1.
    assert (reputation u' < reputation u)
      by (apply Hb1, elem_of_app; right; apply list_elem_of_here).
    assert (reputation u <= reputation u')
      by (apply Ha2, elem_of_app; right; apply list_elem_of_here).
    lia.
  - destruct l as [|x l]; simpl in Hl; [by injection Hl|].
    injection Hl as Hx Hl. subst x a1 b2.
    assert (reputation u < reputation u')
      by (apply Hb2, elem_of_app; right; apply list_elem_of_here).
    assert (reputation u' <= reputation u)
      by (apply Ha1, elem_of_app; right; apply list_elem_of_here).
    lia.
Qed.

Lemma sort_head_first_max us u rest :
  sort_by_reputation us = u :: rest -> first_max us u.
Proof.
  revert u rest. induction us as [|x us IH]; intros u rest; simpl; [done|].
  destruct (sort_by_reputation us) as [|v r] eqn:Hs.
  - assert (us = []) as ->.
    { apply Permutation_nil. by rewrite <- (sort_by_reputation_perm us), Hs. }
    simpl. intros [= <- <-]. exists [], []. split; [done|].
    split; intros y Hy; by apply elem_of_nil in Hy.
  - destruct (IH v r eq_refl) as (before & after & -> & Hb & Ha). simpl.
    destruct (Z.leb_spec (reputation v) (reputation x)) as [Hle|Hlt].
    + intros [= <- <-]. exists [], (before ++ v :: after)%list. split; [done|].
      split; [intros y Hy; by apply elem_of_nil in Hy|].
      intros y Hy. apply elem_of_app in Hy as [Hy|Hy].
      * specialize (Hb y Hy). lia.
      * apply elem_of_cons in Hy as [->|Hy]; [lia|]. specialize (Ha y Hy). lia.
    + intros [= <- <-]. exists (x :: before), after. split; [done|].
      split; [|done]. intros y Hy. apply elem_of_cons in Hy as [->|Hy]; [lia|auto].
Qed.

(** X11.  The leaderboard and the statistics agree on who is first: the
    single entry of [getLeaderboard(1)] is the user [updateGlobalStats]
    names as topPerformer whenever that entry has a positive reputation
    (none if its address is the empty string); when it has not, or when
    there is no user, topPerformer is none. *)
Theorem leaderboard_head_is_top_performer w :
  let top := topPerformer (statsFile (snd (updateGlobalStats w))) in
  match fst (getLeaderboard 1 w) with
  | Ok (e :: _) =>
      if 0 <? e_reputation e
      then top = if decide (e_address e = "") then None else Some (e_address e)
      else top = None
  | Ok [] => top = None /\ usersFile w = []
  | Err _ => False
  end.
Proof.
  cbv zeta. rewrite updateGlobalStats_run. cbv zeta.
  cbn [snd statsFile with_stats tick topPerformer aggregate].
  change (fst (getLeaderboard 1 w))
    with (Ok (map entry (take 1 (sort_by_reputation (Obj.values (usersFile w)))))).
  destruct (sort_by_reputation (Obj.values (usersFile w))) as [|u rest] eqn:Hs.
  - assert (Hnil : Obj.values (usersFile w) = []).
    { apply Permutation_nil.
      by rewrite <- (sort_by_reputation_perm (Obj.values (usersFile w))), Hs. }
    rewrite Hnil. simpl. split; [done|].
    destruct (usersFile w); [done|discriminate].
  - apply sort_head_first_max in Hs. simpl.
    destruct (top_step_scan (Obj.values (usersFile w)))
      as [(u0 & -> & Hmax & Hpos) | [-> Hall]].
    + rewrite (first_max_unique _ _ _ Hs Hmax).
      destruct (Z.ltb_spec 0 (reputation u0)); [|lia].
      unfold address_or_null, truthy.
      destruct (String.eqb_spec (address u0) ""), (decide (address u0 = "")); done.
    + destruct Hs as (before & after & Heq & _).
      assert (reputation u <= 0).
      { apply Hall. rewrite Heq. apply elem_of_app. right. apply list_elem_of_here. }
      destruct (Z.ltb_spec 0 (reputation u)); [lia|done].
Qed.

(** ** More on [updatePromise] *)

(** X12.  [updatePromise] on a stored id succeeds and rewrites the first
    record with that id in place: the collection keeps its length and
    every other position, the returned record is the stored one, its
    updatedAt is the current time whatever the body says, and a field the
    body does not mention keeps its value.  On an id no record has, it
    raises "Promise <id> not found" and leaves everything as it was. *)
Theorem updatePromise_in_place pid updates w :
  match list_find (fun p => id p = pid) (promisesFile w) with
  | Some (i, p) =>
      exists p',
        fst (updatePromise pid updates w) = Ok p' /\
        promisesFile (snd (updatePromise pid updates w)) = <[i := p']> (promisesFile w) /\
        length (promisesFile (snd (updatePromise pid updates w)))
          = length (promisesFile w) /\
        (forall j, j <> i ->
           promisesFile (snd (updatePromise pid updates w)) !! j = promisesFile w !! j) /\
        (forall j q, (j < i)%nat -> promisesFile w !! j = Some q -> id q <> pid) /\
        updatedAt p' = now w /\
        (d_id updates = None -> id p' = id p) /\
        (d_createdAt updates = None -> createdAt p' = createdAt p) /\
        (d_address updates = None -> paddress p' = paddress p) /\
        (d_message updates = None -> message p' = message p) /\
        (d_deadline updates = None -> deadline p' = deadline p) /\
        (d_status updates = None -> status p' = status p) /\
        (d_proof updates = None -> proof p' = proof p) /\
        (d_category updates = None -> category p' = category p) /\
        (d_difficulty updates = None -> difficulty p' = difficulty p) /\
        (d_adminAdjustedProgress updates = None ->
           adminAdjustedProgress p' = adminAdjustedProgress p)
  | None =>
      updatePromise pid updates w = (Err (Error ("Promise " ++ pid ++ " not found")), w)
  end.
Proof.
  destruct (list_find (fun p => id p = pid) (promisesFile w)) as [[i p]|] eqn:Hp.
  - exists (set_updatedAt (now w) (spread_promise p updates)).
    assert (Hfile : promisesFile (snd (updatePromise pid updates w)) =
                    <[i := set_updatedAt (now w) (spread_promise p updates)]>
                      (promisesFile w)).
    { rewrite (updatePromise_run _ _ _ _ _ Hp). cbv zeta.
      rewrite updateGlobalStats_run. cbv zeta. cbn [snd promisesFile with_stats tick].
      match goal with
      | |- context [settle p updates ?w1] =>
          rewrite (proj1 (settle_frame p updates w1))
      end.
      reflexivity. }
    split; [by rewrite (updatePromise_run _ _ _ _ _ Hp)|].
    split; [exact Hfile|]. rewrite Hfile.
    split; [apply length_insert|].
    split; [intros j Hj; by apply list_lookup_insert_ne|].
    split.
    { intros j q Hj Hq. apply list_find_Some in Hp as (_ & _ & Hmin). by eapply Hmin. }
    simpl. repeat split; by intros ->.
  - by apply updatePromise_missing.
Qed.

Lemma users_after_updatePromise_run pid updates w i p :
  list_find (fun p => id p = pid) (promisesFile w) = Some (i, p) ->
  usersFile (snd (updatePromise pid updates w)) =
    usersFile (snd (settle p updates
                      (with_promises
                         (<[i := set_updatedAt (now w) (spread_promise p updates)]>
                            (promisesFile w))
                         (tick w)))).
Proof.
  intros Hp. rewrite (updatePromise_run _ _ _ _ _ Hp). cbv zeta.
  by rewrite updateGlobalStats_run.
Qed.



(** X14.  Moving a promise to a status other than "completed" and "failed"
    (back to "active", say) still runs the reputation engine, but on a
    well-formed owner record it changes nothing except lastActive:
    reputation, level, the three counters and the streak stay as they
    were. *)
Theorem updatePromise_other_status pid updates w i p s a u :
  list_find (fun p => id p = pid) (promisesFile w) = Some (i, p) ->
  d_status updates = Some s ->
  s <> "" -> s <> "completed" -> s <> "failed" ->
  status p <> Some s ->
  paddress p = Some a ->
  Obj.get (toLowerCase a) (usersFile w) = Some u ->
  0 <= reputation u -> level u = reputation u / 50 + 1 ->
  Obj.get (toLowerCase a) (usersFile (snd (updatePromise pid updates w)))
    = Some (set_lastActive (now (tick w)) u).
Proof.
  intros Hp Hs Hne Hnc Hnf Hchg Ha Hu Hrep Hlevel.
  rewrite (users_after_updatePromise_run _ _ _ _ _ Hp).
  unfold settle. rewrite Hs, (truthy_nonempty _ Hne).
  rewrite bool_decide_eq_false_2 by congruence. cbn [andb negb].
  rewrite Ha. erewrite updateUserReputation_run by exact Hu.
  cbn [snd usersFile with_users]. rewrite get_set_same. f_equal.
  unfold outcome.
  destruct (String.eqb_spec s "completed") as [?|_]; [done|].
  destruct (String.eqb_spec s "failed") as [?|_]; [done|].
  unfold set_lastActive. cbn [now tick date_now ticks with_promises].
  rewrite Z.add_0_r, Z.max_r by done. rewrite <- Hlevel. by destruct u.
Qed.

Lemma updatePromise_other_status_witness :
  Obj.get "0xabc"
    (usersFile (snd (updatePromise "promise_1004_r0"
                       (mkPromiseData None None None None None None None
                                      (Some "paused") None None None)
                       one_promise)))
  = Some (mkUser "0xABC" 0 0 0 1 0 1 1001 1010).
Proof.
  rewrite (updatePromise_other_status "promise_1004_r0" _ one_promise 0%nat
             (mkPromise "promise_1004_r0" 1005 1006 None (Some "0xABC") (Some "run 5k")
                        (Some 2000) (Some "active") None (Some "fitness") (Some "easy"))
             "paused" "0xABC" (mkUser "0xABC" 0 0 0 1 0 1 1001 1007));
    done.
Defined.

(** X15.  The admin progress route stores any integer as
    adminAdjustedProgress (there is no range check) and touches nothing
    else of the promise but updatedAt; the users and the delete requests
    are as before. *)
Theorem admin_progress_only pid n w i p :
  list_find (fun p => id p = pid) (promisesFile w) = Some (i, p) ->
  let w' := snd (handle (AdminUpdatePromiseProgress pid n) w) in
  promisesFile w' !! i =
    Some (mkPromise (id p) (createdAt p) (now w) (Some n) (paddress p) (message p)
                    (deadline p) (status p) (proof p) (category p) (difficulty p)) /\
  (forall j, j <> i -> promisesFile w' !! j = promisesFile w !! j) /\
  usersFile w' = usersFile w /\
  deleteRequestsFile w' = deleteRequestsFile w.
Proof.
  intros Hp w'. subst w'. cbn [handle]. rewrite (proj1 (then_ret _ _)).
  pose proof Hp as Hfind. apply list_find_Some in Hfind as (Hi & _ & _).
  rewrite (updatePromise_run _ _ _ _ _ Hp). cbv zeta. rewrite updateGlobalStats_run.
  cbv zeta. cbn [snd promisesFile usersFile deleteRequestsFile with_stats tick].
  unfold settle. cbn [d_status ret snd promisesFile usersFile deleteRequestsFile
                      with_promises tick].
  split; [|split; [|split]]; try reflexivity.
  - rewrite list_lookup_insert_eq by (by eapply lookup_lt_Some). reflexivity.
  - intros j Hj. by apply list_lookup_insert_ne.
Qed.

Lemma admin_progress_only_witness :
  adminAdjustedProgress <$>
    promisesFile (snd (handle (AdminUpdatePromiseProgress "promise_1004_r0" 250)
                              one_promise)) !! 0%nat
  = Some (Some 250).
Proof.
  destruct (admin_progress_only "promise_1004_r0" 250 one_promise 0%nat
              (mkPromise "promise_1004_r0" 1005 1006 None (Some "0xABC") (Some "run 5k")
                         (Some 2000) (Some "active") None (Some "fitness") (Some "easy")))
    as (H & _).
  - vm_compute. reflexivity.
  - rewrite H. reflexivity.
Defined.

(** ** More on deletion and the moderation workflow *)

Lemma length_filter_id pid (l : list PromiseRec) :
  (length (filter (fun q => id q <> pid) l) + length (filter (fun q => id q = pid) l)
   = length l)%nat.
Proof.
  induction l as [|q l IH]; [done|].
  rewrite !filter_cons. destruct (decide (id q = pid)), (decide (id q <> pid));
    simpl; try done; lia.
Qed.

(** X16.  [deletePromise] on a stored id removes every record carrying
    that id, however many there are, and keeps the others in order, while
    the owner of the first such record loses exactly one from
    totalPromises (floored at 0); the delete requests, including those
    pending for that id, stay as they are.  On an id no record has, it
    raises "Promise <id> not found" and changes nothing. *)
Theorem deletePromise_effects pid w :
  match list_find (fun p => id p = pid) (promisesFile w) with
  | Some (j, p) =>
      let w' := snd (deletePromise pid w) in
      fst (deletePromise pid w) = Ok tt /\
      promisesFile w' = filter (fun q => id q <> pid) (promisesFile w) /\
      (length (promisesFile w') + length (filter (fun q => id q = pid) (promisesFile w))
       = length (promisesFile w))%nat /\
      (forall a u,
         paddress p = Some a ->
         Obj.get (toLowerCase a) (usersFile w) = Some u ->
         exists u', Obj.get (toLowerCase a) (usersFile w') = Some u' /\
                    totalPromises u' = Z.max 0 (totalPromises u - 1)) /\
      deleteRequestsFile w' = deleteRequestsFile w
  | None =>
      deletePromise pid w = (Err (Error ("Promise " ++ pid ++ " not found")), w)
  end.
Proof.
  destruct (list_find (fun p => id p = pid) (promisesFile w)) as [[j p]|] eqn:Hp.
  - cbv zeta. rewrite (deletePromise_run _ _ _ _ Hp). cbn [fst snd].
    split; [done|]. rewrite after_delete_promises. split; [done|].
    split; [apply length_filter_id|]. split.
    + intros a u Ha Hu. rewrite after_delete_users, Ha, Hu.
      eexists. split; [apply get_set_same|]. reflexivity.
    + apply after_delete_requests.
  - by apply deletePromise_missing.
Qed.

(** X17.  [addDeleteRequest] never checks that the promise exists.  When
    no pending request is stored for the id (none at all, or only resolved
    ones), it succeeds for any id: it appends one request, pending, with
    the given promise id and requester and no processing data, keeps the
    earlier requests, and touches no other collection. *)
Theorem addDeleteRequest_appends pid requester w :
  (forall r, r ∈ deleteRequestsFile w -> promiseId r = pid -> rstatus r <> "pending") ->
  exists r,
    fst (addDeleteRequest pid requester w) = Ok r /\
    deleteRequestsFile (snd (addDeleteRequest pid requester w))
      = (deleteRequestsFile w ++ [r])%list /\
    promiseId r = pid /\ requesterAddress r = requester /\ rstatus r = "pending" /\
    processedBy r = None /\ processedAt r = None /\
    usersFile (snd (addDeleteRequest pid requester w)) = usersFile w /\
    promisesFile (snd (addDeleteRequest pid requester w)) = promisesFile w /\
    statsFile (snd (addDeleteRequest pid requester w)) = statsFile w /\
    sessionsFile (snd (addDeleteRequest pid requester w)) = sessionsFile w.
Proof.
  intros Hnone.
  assert (Hfind : list_find (pending_for pid) (deleteRequestsFile w) = None).
  { apply list_find_None, list.Forall_forall. intros r Hr [Hpid Hst].
    by apply (Hnone r). }
  rewrite (addDeleteRequest_new _ _ _ Hfind). cbn [fst snd].
  exists (new_request pid requester w). repeat split.
Qed.

Lemma addDeleteRequest_appends_witness :
  exists r,
    fst (addDeleteRequest "ghost" "0xabc" one_promise) = Ok r /\
    promiseId r = "ghost" /\ rstatus r = "pending".
Proof.
  destruct (addDeleteRequest_appends "ghost" "0xabc" one_promise)
    as (r & Hr & _ & Hp & _ & Hs & _).
  - intros r Hr. vm_compute in Hr. by apply elem_of_nil in Hr.
  - exists r. split; [exact Hr|]. split; [exact Hp|exact Hs].
Defined.

(** X18.  [updateDeleteRequestStatus] has no guard on the current status
    of the request and none on the new one.  For a stored request id and
    any status other than "approved" it succeeds: the first request with
    that id gets the new status, processedBy and processedAt (the current
    time), keeps its id, promise id, requester and requestedAt, and no
    other request or collection changes.  For an id no request has, it
    raises "Delete request <id> not found." and changes nothing. *)
Theorem resolve_without_guard requestId st admin w :
  st <> "approved" ->
  match list_find (fun r => rid r = requestId) (deleteRequestsFile w) with
  | Some (i, req) =>
      let w' := snd (updateDeleteRequestStatus requestId st admin w) in
      let req' := mkDeleteRequest (rid req) (promiseId req) (requesterAddress req) st
                                  (requestedAt req) (Some admin) (Some (now w)) in
      fst (updateDeleteRequestStatus requestId st admin w) = Ok req' /\
      deleteRequestsFile w' = <[i := req']> (deleteRequestsFile w) /\
      (forall j, j <> i -> deleteRequestsFile w' !! j = deleteRequestsFile w !! j) /\
      usersFile w' = usersFile w /\
      promisesFile w' = promisesFile w /\
      statsFile w' = statsFile w /\
      sessionsFile w' = sessionsFile w
  | None =>
      updateDeleteRequestStatus requestId st admin w =
        (Err (Error ("Delete request " ++ requestId ++ " not found.")), w)
  end.
Proof.
  intros Hst.
  destruct (list_find (fun r => rid r = requestId) (deleteRequestsFile w))
    as [[i req]|] eqn:Hreq.
  - cbv zeta. rewrite (updateDeleteRequestStatus_run _ st admin _ _ _ Hreq). cbv zeta.
    destruct (String.eqb_spec st "approved") as [?|_]; [done|].
    cbn [fst snd]. split; [done|]. split; [done|].
    split; [intros j Hj; by apply list_lookup_insert_ne|]. done.
  - by apply updateDeleteRequestStatus_missing.
Qed.

Lemma resolve_without_guard_witness :
  rstatus <$>
    deleteRequestsFile
      (snd (updateDeleteRequestStatus "delreq_1009_r1" "pending" "0xadmin"
              (serve [AdminRejectDelete "delreq_1009_r1" "0xadmin"] one_request)))
  = ["pending"].
Proof.
  pose proof (resolve_without_guard "delreq_1009_r1" "pending" "0xadmin"
                (serve [AdminRejectDelete "delreq_1009_r1" "0xadmin"] one_request)) as H.
  vm_compute list_find in H. destruct H as (_ & Hfile & _); [discriminate|].
  rewrite Hfile. vm_compute. reflexivity.
Defined.

(** X19.  The admin listing [getDeleteRequests()] returns exactly the
    stored requests whose status is "pending", in stored order, and
    changes nothing; the request [addDeleteRequest] returns is always in
    the listing taken right after the call. *)
Theorem pending_listing pid requester w :
  getDeleteRequests false w =
    (Ok (filter (fun r => rstatus r = "pending") (deleteRequestsFile w)), w) /\
  exists r listing,
    fst (addDeleteRequest pid requester w) = Ok r /\
    fst (getDeleteRequests false (snd (addDeleteRequest pid requester w))) = Ok listing /\
    r ∈ listing /\ promiseId r = pid.
Proof.
  split; [reflexivity|].
  destruct (list_find (pending_for pid) (deleteRequestsFile w)) as [[i x]|] eqn:Hx.
  - rewrite (addDeleteRequest_existing _ _ _ _ _ Hx). cbn [fst snd].
    exists x, (filter (fun r => rstatus r = "pending") (deleteRequestsFile w)).
    apply list_find_Some in Hx as (Hi & [Hpid Hst] & _).
    split; [done|]. split; [done|]. split; [|done].
    apply list_elem_of_filter. split; [done|]. by eapply list_elem_of_lookup_2.
  - rewrite (addDeleteRequest_new _ _ _ Hx). cbn [fst snd].
    eexists _, _. split; [reflexivity|]. split; [reflexivity|]. split; [|reflexivity].
    apply list_elem_of_filter. split; [reflexivity|].
    cbn [deleteRequestsFile with_deleteRequests]. apply elem_of_app. right.
    apply list_elem_of_here.
Qed.

(** ** [createUser] on its own *)



(** ** Bounds on the statistics *)

Lemma completed_le (ps : list PromiseRec) :
  Z.of_nat (length (filter (fun p => status p = Some "completed") ps))
  <= Z.of_nat (length ps).
Proof. apply Nat2Z.inj_le, length_filter. Qed.

(** X21.  Whatever the collections, the completion rate [updateGlobalStats]
    computes (before rounding) lies between 0 and 100 and is 0 when no
    promise is completed, in particular when there is none; and the
    average reputation is 0 whenever no session is stored, whatever the
    users' reputations. *)
Theorem stats_bounds us ps ss t :
  let s := aggregate us ps ss t in
  (0 <= completionRate s)%Q /\
  (completionRate s <= 100)%Q /\
  (filter (fun p => status p = Some "completed") ps = [] -> (completionRate s == 0)%Q) /\
  (ss = [] -> averageReputation s = 0%Q).
Proof.
  cbv zeta. unfold aggregate. cbn [completionRate averageReputation].
  pose proof (completed_le ps) as Hle.
  set (c := Z.of_nat (length (filter (fun p => status p = Some "completed") ps))) in *.
  assert (Hc : 0 <= c) by apply Nat2Z.is_nonneg.
  set (n := Z.of_nat (length ps)) in *.
  split; [|split; [|split]].
  - destruct (Z.ltb_spec 0 n) as [Hn|_]; [|done].
    destruct n as [|q|q]; try lia.
    unfold Qle, Qdiv, Qmult, Qinv, inject_Z. simpl. lia.
  - destruct (Z.ltb_spec 0 n) as [Hn|_]; [|done].
    destruct n as [|q|q]; try lia.
    unfold Qle, Qdiv, Qmult, Qinv, inject_Z. simpl. lia.
  - intros Hnone. subst c. rewrite Hnone. simpl.
    destruct (0 <? n); [|done].
    unfold Qeq, Qdiv, Qmult, Qinv, inject_Z. simpl. lia.
  - intros ->. reflexivity.
Qed.

Lemma stats_bounds_witness :
  (completionRate (aggregate (usersFile one_promise) (promisesFile one_promise) [] 0)
   == 0)%Q /\
  averageReputation (aggregate (usersFile one_promise) (promisesFile one_promise) [] 0)
  = 0%Q.
Proof.
  destruct (stats_bounds (usersFile one_promise) (promisesFile one_promise) [] 0)
    as (_ & _ & Hrate & Havg).
  split; [apply Hrate; vm_compute; reflexivity|apply Havg; reflexivity].
Defined.

(** ** Dispatch *)

Lemma split_on_free sep s : free_of sep s -> split_on sep s = [s].
Proof.
  induction s as [|c s IH]; simpl; [done|]. intros [Hc Hs].
  destruct (Ascii.eqb_spec c sep) as [?|_]; [done|]. by rewrite IH.
Qed.

Lemma split_on_segment sep s rest :
  free_of sep s -> split_on sep (s ++ String sep rest) = s :: split_on sep rest.
Proof.
  induction s as [|c s IH]; simpl.
  - intros _. by rewrite Ascii.eqb_refl.
  - intros [Hc Hs]. destruct (Ascii.eqb_spec c sep) as [?|_]; [done|]. by rewrite IH.
Qed.

Lemma prefix_app p s : String.prefix p (p ++ s) = true.
Proof.
  induction p as [|c p IH]; simpl; [by destruct s|].
  destruct (ascii_dec c c); [exact IH|done].
Qed.

(** X22.  The main server takes the promise id of [PUT /promises/<id>] and
    the address of [GET /users/<address>] to be the text between the
    second and the third slash of the path: a further slash and whatever
    follows it are ignored, and [PUT /promises] without a slash is not a
    route. *)
Theorem main_route_segments seg rest :
  free_of "/" seg ->
  main_route "PUT" ("/promises/" ++ seg) = MainUpdatePromise (Some seg) /\
  main_route "PUT" ("/promises/" ++ seg ++ "/" ++ rest) = MainUpdatePromise (Some seg) /\
  main_route "GET" ("/users/" ++ seg) = MainGetUser (Some seg) /\
  main_route "GET" ("/users/" ++ seg ++ "/" ++ rest) = MainGetUser (Some seg) /\
  main_route "PUT" "/promises" = MainNotFound.
Proof.
  intros Hseg.
  assert (Hp : forall tail,
            main_route "PUT" ("/promises/" ++ tail)
            = MainUpdatePromise (split_on "/" tail !! 0%nat)).
  { intros tail. unfold main_route.
    change (String.eqb "PUT" "OPTIONS") with false. cbv iota.
    change (String.eqb "PUT" "POST") with false.
    change (String.eqb "PUT" "GET") with false.
    rewrite !andb_false_r. rewrite prefix_app.
    change (String.eqb "PUT" "PUT") with true. cbn [andb].
    reflexivity. }
  assert (Hu : forall tail,
            main_route "GET" ("/users/" ++ tail)
            = MainGetUser (split_on "/" tail !! 0%nat)).
  { intros tail. unfold main_route.
    change (String.eqb "GET" "OPTIONS") with false. cbv iota.
    change (String.eqb "GET" "POST") with false.
    change (String.eqb "GET" "PUT") with false.
    rewrite !andb_false_r.
    change (String.eqb ("/users/" ++ tail) "/promises") with false. cbn [andb].
    change (String.prefix "/promises/" ("/users/" ++ tail)) with false. cbn [andb].
    rewrite prefix_app. change (String.eqb "GET" "GET") with true. cbn [andb].
    reflexivity. }
  rewrite !Hp, !Hu. rewrite (split_on_free _ _ Hseg).
  change (seg ++ "/" ++ rest) with (seg ++ String "/" rest).
  rewrite (split_on_segment _ _ _ Hseg). done.
Qed.

Lemma main_route_segments_witness :
  main_route "PUT" "/promises/promise_1004_r0/extra"
  = MainUpdatePromise (Some "promise_1004_r0").
Proof.
  destruct (main_route_segments "promise_1004_r0" "extra") as (_ & H & _).
  - vm_compute. repeat split; discriminate.
  - exact H.
Defined.

(** X23.  The admin server admits a request exactly on the second
    space-separated word of its Authorization header: any scheme word
    followed by one space and a token that equals the admin address up to
    letter case is admitted, under the token as sent; a missing header, and
    a header without a space, are answered 403; and an OPTIONS request is
    answered before the check. *)
Theorem admin_gate_token method scheme token :
  method <> "OPTIONS" ->
  free_of " " scheme -> free_of " " token ->
  (toLowerCase token = ADMIN_WALLET_ADDRESS ->
   admin_gate method (Some (scheme ++ " " ++ token)) = AdminAdmitted token) /\
  (toLowerCase token <> ADMIN_WALLET_ADDRESS ->
   admin_gate method (Some (scheme ++ " " ++ token)) = AdminForbidden) /\
  admin_gate method (Some scheme) = AdminForbidden /\
  admin_gate method None = AdminForbidden /\
  admin_gate "OPTIONS" None = AdminPreflight.
Proof.
  intros Hm Hs Ht.
  assert (Hmeth : String.eqb method "OPTIONS" = false) by (by apply String.eqb_neq).
  assert (Hsplit : split_on " " (scheme ++ " " ++ token) !! 1%nat = Some token).
  { change (scheme ++ " " ++ token) with (scheme ++ String " " token).
    rewrite (split_on_segment _ _ _ Hs), (split_on_free _ _ Ht). done. }
  assert (Hheader : truthy (Some (scheme ++ " " ++ token)) = true).
  { apply truthy_nonempty. by destruct scheme. }
  split; [|split; [|split; [|split]]].
  - intros Hadmin. unfold admin_gate. rewrite Hmeth, Hheader, Hsplit.
    assert (Htok : truthy (Some token) = true).
    { apply truthy_nonempty. intros ->. by vm_compute in Hadmin. }
    rewrite Htok, Hadmin, String.eqb_refl. reflexivity.
  - intros Hother. unfold admin_gate. rewrite Hmeth, Hheader, Hsplit.
    apply String.eqb_neq in Hother. rewrite Hother, orb_true_r. reflexivity.
  - unfold admin_gate. rewrite Hmeth.
    destruct (truthy (Some scheme)); [|done]. by rewrite (split_on_free _ _ Hs).
  - unfold admin_gate. by rewrite Hmeth.
  - reflexivity.
Qed.

Lemma admin_gate_token_witness :
  admin_gate "POST" (Some "Basic 0x84A610D2DA45F123BE33B64B4C001B25B399FF5C2")
  = AdminAdmitted "0x84A610D2DA45F123BE33B64B4C001B25B399FF5C2".
Proof.
  destruct (admin_gate_token "POST" "Basic" "0x84A610D2DA45F123BE33B64B4C001B25B399FF5C2")
    as (H & _).
  - discriminate.
  - vm_compute. repeat split; discriminate.
  - vm_compute. repeat split; discriminate.
  - apply H. vm_compute. reflexivity.
Defined.

(** ** Reputation accounting *)


(** ** Sessions are never removed *)

Lemma settle_sessions p updates w :
  sessionsFile (snd (settle p updates w)) = sessionsFile w.
Proof.
  unfold settle. destruct (d_status updates) as [s|]; [|done].
  destruct (_ && _)%bool; [|done].
  destruct (paddress p) as [a|]; [|done].
  destruct (Obj.get (toLowerCase a) (usersFile w)) as [u|] eqn:Hu.
  - by rewrite (updateUserReputation_run _ s _ _ Hu).
  - by rewrite (updateUserReputation_absent _ s _ Hu).
Qed.

Lemma sessions_after_handle r w :
  sessionsFile (snd (handle r w)) = sessionsFile w \/
  exists sid s',
    sessionsFile (snd (handle r w)) = Obj.set sid s' (sessionsFile w) /\
    forall s, Obj.get sid (sessionsFile w) = Some s ->
              ip s' = ip s /\ firstVisit s' = firstVisit s.
Proof.
  destruct r as [sid ipa|d|pid u|pid a|requestId admin|requestId admin|pid n];
    cbn [handle]; rewrite ?(proj1 (then_ret _ _)).
  - right. rewrite recordSession_run.
    destruct (Obj.get sid (sessionsFile w)) as [s|] eqn:Hs.
    + exists sid, (mkSession (ip s) (firstVisit s) (now w)). split; [reflexivity|].
      intros s0 Hs0. by simplify_eq.
    + rewrite updateGlobalStats_run.
      exists sid, (mkSession ipa (now w) (now (tick w))). split; [reflexivity|].
      intros s0 Hs0. rewrite Hs in Hs0. discriminate.
  - left. destruct (d_address d) as [a|] eqn:Hd.
    + rewrite (createPromise_run _ _ _ Hd). cbv zeta. rewrite updateGlobalStats_run.
      cbv zeta. cbn [snd sessionsFile with_stats with_users with_promises tick draw].
      by destruct (Obj.get (toLowerCase a) (usersFile w)).
    + by rewrite (createPromise_undefined _ _ Hd).
  - left. destruct (list_find (fun p => id p = pid) (promisesFile w)) as [[i p]|] eqn:Hp.
    + rewrite (updatePromise_run _ _ _ _ _ Hp). cbv zeta. rewrite updateGlobalStats_run.
      cbv zeta. cbn [snd sessionsFile with_stats tick]. by rewrite settle_sessions.
    + by rewrite (updatePromise_missing _ _ _ Hp).
  - left. apply promises_after_addDeleteRequest.
  - left. destruct (list_find (fun r => rid r = requestId) (deleteRequestsFile w))
      as [[i req]|] eqn:Hreq.
    + rewrite (updateDeleteRequestStatus_run _ "approved" admin _ _ _ Hreq). cbv zeta.
      change (String.eqb "approved" "approved") with true. cbv iota.
      destruct (list_find _ (promisesFile w)) as [[j p]|]; [|done].
      cbn [snd]. by rewrite (proj2 (after_delete_requests _ _ _)).
    + by rewrite (updateDeleteRequestStatus_missing _ _ _ _ Hreq).
  - left. destruct (list_find (fun r => rid r = requestId) (deleteRequestsFile w))
      as [[i req]|] eqn:Hreq.
    + by rewrite (updateDeleteRequestStatus_run _ "rejected" admin _ _ _ Hreq).
    + by rewrite (updateDeleteRequestStatus_missing _ _ _ _ Hreq).
  - left. destruct (list_find (fun p => id p = pid) (promisesFile w)) as [[i p]|] eqn:Hp.
    + rewrite (updatePromise_run _ _ _ _ _ Hp). cbv zeta. rewrite updateGlobalStats_run.
      cbv zeta. cbn [snd sessionsFile with_stats tick]. by rewrite settle_sessions.
    + by rewrite (updatePromise_missing _ _ _ Hp).
Qed.

(** X25.  No request ever removes a session or rewrites where it came
    from: a session stored under an id is still stored under that id after
    any sequence of requests, with the same ip and firstVisit. *)
Theorem sessions_are_never_removed rs w sid s :
  Obj.get sid (sessionsFile w) = Some s ->
  exists s', Obj.get sid (sessionsFile (serve rs w)) = Some s' /\
             ip s' = ip s /\ firstVisit s' = firstVisit s.
Proof.
  revert w s. induction rs as [|r rs IH]; intros w s Hs; simpl; [eauto|].
  destruct (sessions_after_handle r w) as [Hsame|(sid' & s1 & Hset & Hkeep)].
  - apply IH. by rewrite Hsame.
  - destruct (decide (sid = sid')) as [<-|Hne].
    + destruct (Hkeep s Hs) as [Hip Hfirst].
      destruct (IH (snd (handle r w)) s1) as (s' & Hs' & Hip' & Hfirst').
      { rewrite Hset. apply get_set_same. }
      exists s'. split; [done|]. split; congruence.
    + apply IH. rewrite Hset. by rewrite get_set_other.
Qed.

Lemma sessions_are_never_removed_witness :
  exists s',
    Obj.get "visit-1"
      (sessionsFile (serve [PostRecordSession "visit-1" "10.0.0.9";
                            PostPromises (data "0xABC" "run 5k" (Some "active"))]
                           (serve [PostRecordSession "visit-1" "10.0.0.1"]
                                  (boot clock0 rand0)))) = Some s' /\
    ip s' = "10.0.0.1" /\ firstVisit s' = 1001.
Proof.
  apply (sessions_are_never_removed _ _ "visit-1" (mkSession "10.0.0.1" 1001 1002)).
  vm_compute. reflexivity.
Defined.

(** ** One user per address, whatever its letter case *)


